(** * Dislikes: toggle engine, relationship store and query facade

    A shallow embedding of [daos/DislikeDao.ts], [controllers/DislikeController.ts]
    and the mongoose schema of the [dislikes] collection.

    - The [dislikes] collection is a list of documents in insertion order
      (the schema declares no unique index, so the same pair may occur twice).
    - The DAO methods are functions on the store.
    - A request handler is a tree of awaited DAO calls ([Prog]): every
      [await] is one atomic store access, after which another request may
      run.  [run] executes a handler without interleaving, [interleave]
      executes two handlers under a schedule.
    - Identifiers are the strings of the request path.  [exec] and [run]
      are the store on primary keys: every id that reaches a call is taken
      to cast to an object id, and the read of an unknown tuit is taken to
      yield null.  [execCast] and [runCast] cover every string: a call
      whose id the driver does not cast is rejected, and the read of an
      unknown tuit is rejected with the NotFound of the specification. *)

From stdpp Require Import gmap strings list.

Local Open Scope string_scope.

(** ** Documents *)

(** [DislikeSchema]: a stored dislike holds the two primary keys. *)
Record Dislike := mkDislike {
  tuit : string;
  dislikedBy : string
}.

(** Modelled from the spec: the [User] document (models/users is not part of
    the sources); actors are opaque external references, read by id only. *)
Record User := mkUser {
  username : string
}.

(** Modelled from the spec: the statistics object of a tuit (models/tuits is
    not part of the sources).  The controller writes its [dislikes] field and
    hands the whole object back; the other counters are carried along. *)
Record Stats := mkStats {
  dislikes : Z;
  otherStats : list (string * Z)
}.

(** Modelled from the spec: the [Tuit] document (models/tuits is not part of
    the sources); the core reads an item by id and writes back its counter. *)
Record Tuit := mkTuit {
  postedBy : string;
  stats : Stats
}.

(** The three collections the handlers reach. *)
Record Store := mkStore {
  dislikeColl : list Dislike;
  tuitColl : gmap string Tuit;
  userColl : gmap string User
}.

(** Result of [populate("dislikedBy")]: the reference is replaced by the
    user document, or by null when it does not resolve. *)
Record DislikeWithUser := mkDislikeWithUser {
  du_tuit : string;
  du_dislikedBy : option User
}.

(** Result of the nested [populate] of [tuit] and its [postedBy]. *)
Record TuitWithPoster := mkTuitWithPoster {
  tp_id : string;
  tp_postedBy : option User;
  tp_stats : Stats
}.

Record DislikeWithTuit := mkDislikeWithTuit {
  dt_tuit : option TuitWithPoster;
  dt_dislikedBy : string
}.

(** ** Query filters of the collection *)

Definition byTuit (tid : string) (d : Dislike) : bool :=
  String.eqb (tuit d) tid.

Definition byUser (uid : string) (d : Dislike) : bool :=
  String.eqb (dislikedBy d) uid.

Definition byPair (uid tid : string) (d : Dislike) : bool :=
  String.eqb (tuit d) tid && String.eqb (dislikedBy d) uid.

(** [Model.deleteOne]: removes the first matching document, if any. *)
Fixpoint deleteOne (p : Dislike -> bool) (l : list Dislike) : list Dislike :=
  match l with
  | [] => []
  | d :: l' => if p d then l' else d :: deleteOne p l'
  end.

(** Number of edge records of a pair. *)
Definition pairCount (s : Store) (uid tid : string) : nat :=
  length (List.filter (byPair uid tid) (dislikeColl s)).

(** ** DislikeDao.ts *)

Module DislikeDao.

Definition findAllUsersThatDislikedTuit (tid : string) (s : Store)
  : list DislikeWithUser :=
  List.map (fun d => mkDislikeWithUser (tuit d) (userColl s !! dislikedBy d))
           (List.filter (byTuit tid) (dislikeColl s)).

Definition populateTuit (s : Store) (tid : string) : option TuitWithPoster :=
  match tuitColl s !! tid with
  | Some t => Some (mkTuitWithPoster tid (userColl s !! postedBy t) (stats t))
  | None => None
  end.

Definition findAllTuitsDislikedByUser (uid : string) (s : Store)
  : list DislikeWithTuit :=
  List.map (fun d => mkDislikeWithTuit (populateTuit s (tuit d)) (dislikedBy d))
           (List.filter (byUser uid) (dislikeColl s)).

Definition userUnDislikesTuit (uid tid : string) (s : Store) : Store :=
  mkStore (deleteOne (byPair uid tid) (dislikeColl s)) (tuitColl s) (userColl s).

Definition findUserDislikesTuit (uid tid : string) (s : Store) : option Dislike :=
  List.find (byPair uid tid) (dislikeColl s).

Definition userDislikesTuit (uid tid : string) (s : Store) : Dislike * Store :=
  let d := mkDislike tid uid in
  (d, mkStore (dislikeColl s ++ [d]) (tuitColl s) (userColl s)).

Definition countHowManyDislikedTuit (tid : string) (s : Store) : Z :=
  Z.of_nat (length (List.filter (byTuit tid) (dislikeColl s))).

End DislikeDao.

(** ** Failures *)

Inductive Exn :=
| TypeError         (* property access on null *)
| NotFound          (* the store has no such document *)
| CastError         (* an id of a query does not cast to an object id *)
| ValidationError.  (* an id of a new document does not cast to an object id *)

(** ** TuitDao *)

Module TuitDao.

(** Modelled from the spec: [TuitDao.findTuitById] (daos/TuitDao.ts is not
    part of the sources).  The item is read by id.  The specification names
    no value for the read of an unknown id: this definition is the reading
    in which it yields null, as the point lookup of the dislike DAO does;
    [execCast] below is the reading in the words of the specification, in
    which an operation that requires a missing item is NotFound. *)
Definition findTuitById (tid : string) (s : Store) : option Tuit :=
  tuitColl s !! tid.

(** Modelled from the spec: [TuitDao.updateDislikes] (daos/TuitDao.ts is
    not part of the sources).  The item counter updater applies the new
    statistics to the item; updating the counter of a missing item is
    [NotFound]. *)
Definition updateDislikes (tid : string) (newStats : Stats) (s : Store)
  : Exn + Store :=
  match tuitColl s !! tid with
  | Some t =>
      inr (mkStore (dislikeColl s)
                   (<[tid := mkTuit (postedBy t) newStats]> (tuitColl s))
                   (userColl s))
  | None => inl NotFound
  end.

End TuitDao.

(** ** Awaited store accesses *)

(** One constructor per DAO method the controller awaits, indexed by the
    type of the value the promise resolves to. *)
Inductive Call : Type -> Type :=
| FindAllUsersThatDislikedTuit (tid : string) : Call (list DislikeWithUser)
| FindAllTuitsDislikedByUser (uid : string) : Call (list DislikeWithTuit)
| UserUnDislikesTuit (uid tid : string) : Call unit
| FindUserDislikesTuit (uid tid : string) : Call (option Dislike)
| UserDislikesTuit (uid tid : string) : Call Dislike
| CountHowManyDislikedTuit (tid : string) : Call Z
| FindTuitById (tid : string) : Call (option Tuit)
| UpdateDislikes (tid : string) (newStats : Stats) : Call unit.

(** What a call does to the store, and what its promise settles to
    ([inl]: rejected, [inr]: resolved). *)
Definition exec {A : Type} (c : Call A) (s : Store) : (Exn + A) * Store :=
  match c in Call T return (Exn + T) * Store with
  | FindAllUsersThatDislikedTuit tid =>
      (inr (DislikeDao.findAllUsersThatDislikedTuit tid s), s)
  | FindAllTuitsDislikedByUser uid =>
      (inr (DislikeDao.findAllTuitsDislikedByUser uid s), s)
  | UserUnDislikesTuit uid tid =>
      (inr tt, DislikeDao.userUnDislikesTuit uid tid s)
  | FindUserDislikesTuit uid tid =>
      (inr (DislikeDao.findUserDislikesTuit uid tid s), s)
  | UserDislikesTuit uid tid =>
      let '(d, s') := DislikeDao.userDislikesTuit uid tid s in (inr d, s')
  | CountHowManyDislikedTuit tid =>
      (inr (DislikeDao.countHowManyDislikedTuit tid s), s)
  | FindTuitById tid =>
      (inr (TuitDao.findTuitById tid s), s)
  | UpdateDislikes tid newStats =>
      match TuitDao.updateDislikes tid newStats s with
      | inr s' => (inr tt, s')
      | inl e => (inl e, s)
      end
  end.

(** A store access as it appears in the log of an execution: the call and
    what its promise settled to. *)
Inductive Event :=
| Ev {A : Type} (c : Call A) (a : Exn + A).

(** Counter writes among the logged accesses: item and value written. *)
Definition counterWrite (e : Event) : option (string * Z) :=
  match e with
  | Ev (UpdateDislikes tid newStats) _ => Some (tid, dislikes newStats)
  | Ev _ _ => None
  end.

Definition counterWrites (log : list Event) : list (string * Z) :=
  omap counterWrite log.

(** ** Handlers as trees of awaited calls *)

Inductive Prog (R : Type) : Type :=
| Ret (r : R)
| Throw (e : Exn)
| Await {A : Type} (c : Call A) (k : Exn + A -> Prog R).

Arguments Ret {R} r.
Arguments Throw {R} e.
Arguments Await {R A} c k.

Fixpoint bind {R Q : Type} (p : Prog R) (f : R -> Prog Q) : Prog Q :=
  match p with
  | Ret r => f r
  | Throw e => Throw e
  | Await c k => Await c (fun a => bind (k a) f)
  end.

(** [await dao.method(...)]: a rejected promise throws at the await. *)
Definition await {A : Type} (c : Call A) : Prog A :=
  Await c (fun a => match a with inl e => Throw e | inr v => Ret v end).

(** [try { body } catch (e) { handler }] *)
Fixpoint tryCatch {R : Type} (body : Prog R) (handler : Exn -> Prog R) : Prog R :=
  match body with
  | Ret r => Ret r
  | Throw e => handler e
  | Await c k => Await c (fun a => tryCatch (k a) handler)
  end.

Declare Scope prog_scope.
Delimit Scope prog_scope with prog.
Notation "x <- p ;; q" := (bind p (fun x => q))
  (at level 100, p at next level, right associativity) : prog_scope.
Notation "p ;; q" := (bind p (fun _ => q))
  (at level 100, right associativity) : prog_scope.

(** ** Executions *)

Record Outcome (R : Type) := mkOutcome {
  result : Exn + R;
  final : Store;
  log : list Event
}.

Arguments mkOutcome {R} result final log.
Arguments result {R} o.
Arguments final {R} o.
Arguments log {R} o.

(** A handler run to completion with nothing in between its awaits. *)
Fixpoint run {R : Type} (p : Prog R) (s : Store) : Outcome R :=
  match p with
  | Ret r => mkOutcome (inr r) s []
  | Throw e => mkOutcome (inl e) s []
  | Await c k =>
      let '(a, s') := exec c s in
      let o := run (k a) s' in
      mkOutcome (result o) (final o) (Ev c a :: log o)
  end.

(** One turn of the event loop for a handler: its next awaited call. *)
Definition step {R : Type} (p : Prog R) (s : Store) : Prog R * Store * list Event :=
  match p with
  | Await c k => let '(a, s') := exec c s in (k a, s', [Ev c a])
  | _ => (p, s, [])
  end.

(** Two requests in flight: [true] in the schedule lets the first advance by
    one call, [false] the second; when the schedule ends the first runs to
    completion, then the second.  The two logs are kept apart. *)
Fixpoint interleave {R : Type} (sched : list bool) (p1 p2 : Prog R) (s : Store)
  : Outcome R * Outcome R :=
  match sched with
  | [] =>
      let o1 := run p1 s in
      let o2 := run p2 (final o1) in
      (o1, o2)
  | true :: sched' =>
      let '(p1', s', l) := step p1 s in
      let '(o1, o2) := interleave sched' p1' p2 s' in
      (mkOutcome (result o1) (final o1) (l ++ log o1), o2)
  | false :: sched' =>
      let '(p2', s', l) := step p2 s in
      let '(o1, o2) := interleave sched' p1 p2' s' in
      (o1, mkOutcome (result o2) (final o2) (l ++ log o2))
  end.

(** ** DislikeController.ts *)

(** [req.session['profile']]: the logged-in user, when there is one. *)
Record Profile := mkProfile {
  _id : string
}.

(** [req.params]; a route without [:uid] leaves [uid] unread. *)
Record Params := mkParams {
  uid : string;
  tid : string
}.

Record Request := mkRequest {
  params : Params;
  session_profile : option Profile
}.

(** What the handler sends: [res.sendStatus(code)] or [res.json(body)]. *)
Inductive Response (B : Type) : Type :=
| SendStatus (code : Z)
| Json (body : B).

Arguments SendStatus {B} code.
Arguments Json {B} body.

Module DislikeController.

Local Open Scope prog_scope.

(** [uid === "me" && !profile] *)
Definition meWithoutProfile (uid : string) (profile : option Profile) : bool :=
  String.eqb uid "me" && negb (bool_decide (is_Some profile)).

(** [uid === "me" && profile ? profile._id : uid] *)
Definition userIdOf (uid : string) (profile : option Profile) : string :=
  match String.eqb uid "me", profile with
  | true, Some p => _id p
  | _, _ => uid
  end.

Definition findAllUsersThatDislikedTuit (req : Request)
  : Prog (Response (list DislikeWithUser)) :=
  dislikes <- await (FindAllUsersThatDislikedTuit (tid (params req)));;
  Ret (Json dislikes).

(** [dislikes.filter(dislike => dislike.tuit).map(dislike => dislike.tuit)] *)
Definition tuitsFromDislikes (dislikes : list DislikeWithTuit)
  : list TuitWithPoster :=
  omap dt_tuit
    (List.filter (fun dislike => bool_decide (is_Some (dt_tuit dislike))) dislikes).

Definition findAllTuitsDislikedByUser (req : Request)
  : Prog (Response (list TuitWithPoster)) :=
  let uid := uid (params req) in
  let profile := session_profile req in
  if meWithoutProfile uid profile then Ret (SendStatus 403)
  else
    let userId := userIdOf uid profile in
    dislikes <- await (FindAllTuitsDislikedByUser userId);;
    Ret (Json (tuitsFromDislikes dislikes)).

(** [tuit.stats.dislikes = v]: throws when [tuit] is null. *)
Definition setDislikes (tuit : option Tuit) (v : Z) : Prog Tuit :=
  match tuit with
  | Some t => Ret (mkTuit (postedBy t) (mkStats v (otherStats (stats t))))
  | None => Throw TypeError
  end.

Definition userTogglesTuitDislikes (req : Request)
  : Prog (Response Empty_set) :=
  let uid := uid (params req) in
  let tid := tid (params req) in
  let profile := session_profile req in
  if meWithoutProfile uid profile then Ret (SendStatus 403)
  else
    let userId := userIdOf uid profile in
    tryCatch
      (userAlreadyDislikedTuit <- await (FindUserDislikesTuit userId tid);;
       howManyDislikedTuit <- await (CountHowManyDislikedTuit tid);;
       tuit <- await (FindTuitById tid);;
       tuit' <-
         (if bool_decide (is_Some userAlreadyDislikedTuit) then
            await (UserUnDislikesTuit userId tid);;
            setDislikes tuit (howManyDislikedTuit - 1)
          else
            await (UserDislikesTuit userId tid);;
            setDislikes tuit (howManyDislikedTuit + 1));;
       await (UpdateDislikes tid (stats tuit'));;
       Ret (SendStatus 200))
      (fun e => Ret (SendStatus 404)).

Definition userAlreadyDislikedTuit (req : Request)
  : Prog (Response (option Dislike)) :=
  let uid := uid (params req) in
  let tid := tid (params req) in
  let profile := session_profile req in
  if meWithoutProfile uid profile then Ret (SendStatus 403)
  else
    let userId := userIdOf uid profile in
    dislike <- await (FindUserDislikesTuit userId tid);;
    Ret (Json dislike).

End DislikeController.

(** Toggle requests served one after the other. *)
Fixpoint serveToggles (reqs : list Request) (s : Store)
  : list (Exn + Response Empty_set) * Store :=
  match reqs with
  | [] => ([], s)
  | req :: reqs' =>
      let o := run (DislikeController.userTogglesTuitDislikes req) s in
      let '(rs, s') := serveToggles reqs' (final o) in
      (result o :: rs, s')
  end.

(** The cached counter on the item, when the item exists. *)
Definition cachedDislikes (s : Store) (tid : string) : option Z :=
  match tuitColl s !! tid with
  | Some t => Some (dislikes (stats t))
  | None => None
  end.

(** ** Sample data *)

Definition alice : string := "507f1f77bcf86cd799439011".
Definition bob : string := "507f1f77bcf86cd799439012".
Definition tuit1 : string := "60c72b2f9b1d8a0015a3c001".
Definition tuit9 : string := "60c72b2f9b1d8a0015a3c009".

Definition sampleTuit (n : Z) : Tuit :=
  mkTuit bob (mkStats n [("likes", 0%Z)]).

Definition sampleStore (edges : list Dislike) (n : Z) : Store :=
  mkStore edges {[ tuit1 := sampleTuit n ]}
          {[ alice := mkUser "alice"; bob := mkUser "bob" ]}.

Definition toggleBy (u t : string) : Request :=
  mkRequest (mkParams u t) None.

(** ** The effect of a toggle, and the invariants *)

(** The edge change of a toggle: delete one record of the pair when the
    point lookup finds one, insert one otherwise. *)
Definition toggledEdges (u t : string) (l : list Dislike) : list Dislike :=
  match List.find (byPair u t) l with
  | Some _ => deleteOne (byPair u t) l
  | None => (l ++ [mkDislike t u])%list
  end.

(** The counter a toggle computes from the two reads. *)
Definition toggledCount (u t : string) (s : Store) : Z :=
  match DislikeDao.findUserDislikesTuit u t s with
  | Some _ => (DislikeDao.countHowManyDislikedTuit t s - 1)%Z
  | None => (DislikeDao.countHowManyDislikedTuit t s + 1)%Z
  end.

(** Every pair has at most one edge record. *)
Definition uniqueEdges (s : Store) : Prop :=
  forall u t : string, pairCount s u t <= 1.

(** The cached counter of the item is its authoritative count. *)
Definition counterAgrees (s : Store) (item : string) : Prop :=
  cachedDislikes s item = Some (DislikeDao.countHowManyDislikedTuit item s).

(** ** Scenarios *)

Definition aliceToggles (t : string) : Prog (Response Empty_set) :=
  DislikeController.userTogglesTuitDislikes (toggleBy alice t).

Definition aliceDislike : Dislike := mkDislike tuit1 alice.

(** Alice dislikes tuit1 and sends the toggle twice.  The first request
    finds her dislike, then the second one runs from start to end, then
    the first one resumes at its count. *)
Definition undislikeRace :
  Outcome (Response Empty_set) * Outcome (Response Empty_set) :=
  interleave [true; false; false; false; false; false]
             (aliceToggles tuit1) (aliceToggles tuit1)
             (sampleStore [aliceDislike] 1).

(** Alice does not dislike tuit1 and sends the toggle twice; both requests
    do their point lookup before either one inserts. *)
Definition dislikeRace :
  Outcome (Response Empty_set) * Outcome (Response Empty_set) :=
  interleave [true; false]
             (aliceToggles tuit1) (aliceToggles tuit1)
             (sampleStore [] 0).

(** The store an authenticated toggle leaves when nothing runs in between
    its awaits: the edge change, and the recomputed counter on the item
    when the item resolves. *)
Definition toggledStore (u t : string) (s : Store) : Store :=
  mkStore (toggledEdges u t (dislikeColl s))
          (match tuitColl s !! t with
           | Some x =>
               <[t := mkTuit (postedBy x)
                        (mkStats (toggledCount u t s) (otherStats (stats x)))]>
                 (tuitColl s)
           | None => tuitColl s
           end)
          (userColl s).

(** ** The store on every string *)

(** Modelled from the spec: what a store call settles to on any strings.
    [DislikeSchema] types [tuit] and [dislikedBy] as object ids, so a filter
    or a new document whose id does not cast is rejected by the driver
    before the collection is reached; [cast] is the driver's test, which is
    not part of the sources.  The read of a tuit that does not exist is
    rejected with [NotFound], in the words of the specification for an
    operation that requires a missing item ([TuitDao] is not part of the
    sources).  Everywhere else the call is [exec]. *)
Definition execCast (cast : string -> bool) {A : Type} (c : Call A) (s : Store)
  : (Exn + A) * Store :=
  match c in Call T return (Exn + T) * Store with
  | FindAllUsersThatDislikedTuit tid =>
      if cast tid then exec (FindAllUsersThatDislikedTuit tid) s
      else (inl CastError, s)
  | FindAllTuitsDislikedByUser uid =>
      if cast uid then exec (FindAllTuitsDislikedByUser uid) s
      else (inl CastError, s)
  | UserUnDislikesTuit uid tid =>
      if cast tid && cast uid then exec (UserUnDislikesTuit uid tid) s
      else (inl CastError, s)
  | FindUserDislikesTuit uid tid =>
      if cast tid && cast uid then exec (FindUserDislikesTuit uid tid) s
      else (inl CastError, s)
  | UserDislikesTuit uid tid =>
      if cast tid && cast uid then exec (UserDislikesTuit uid tid) s
      else (inl ValidationError, s)
  | CountHowManyDislikedTuit tid =>
      if cast tid then exec (CountHowManyDislikedTuit tid) s
      else (inl CastError, s)
  | FindTuitById tid =>
      if cast tid then
        match TuitDao.findTuitById tid s with
        | Some x => (inr (Some x), s)
        | None => (inl NotFound, s)
        end
      else (inl CastError, s)
  | UpdateDislikes tid newStats =>
      if cast tid then exec (UpdateDislikes tid newStats) s
      else (inl CastError, s)
  end.

(** A handler run to completion against [execCast]; a result [inl] is a
    handler that rejected and sent nothing. *)
Fixpoint runCast (cast : string -> bool) {R : Type} (p : Prog R) (s : Store)
  : Outcome R :=
  match p with
  | Ret r => mkOutcome (inr r) s []
  | Throw e => mkOutcome (inl e) s []
  | Await c k =>
      let '(a, s') := execCast cast c s in
      let o := runCast cast (k a) s' in
      mkOutcome (result o) (final o) (Ev c a :: log o)
  end.

(** Toggle requests served one after the other against [execCast]. *)
Fixpoint serveTogglesCast (cast : string -> bool) (reqs : list Request) (s : Store)
  : list (Exn + Response Empty_set) * Store :=
  match reqs with
  | [] => ([], s)
  | req :: reqs' =>
      let o := runCast cast (DislikeController.userTogglesTuitDislikes req) s in
      let '(rs, s') := serveTogglesCast cast reqs' (final o) in
      (result o :: rs, s')
  end.

(** The calls that write: the two edge writes and the counter write. *)
Definition isWrite (e : Event) : bool :=
  match e with
  | Ev (UserUnDislikesTuit _ _) _ => true
  | Ev (UserDislikesTuit _ _) _ => true
  | Ev (UpdateDislikes _ _) _ => true
  | Ev _ _ => false
  end.

(** The edge inserts among the logged accesses: user and tuit. *)
Definition edgeInsert (e : Event) : option (string * string) :=
  match e with
  | Ev (UserDislikesTuit uid tid) _ => Some (uid, tid)
  | Ev _ _ => None
  end.

Definition edgeInserts (log : list Event) : list (string * string) :=
  omap edgeInsert log.

(** A sample driver test: the strings of 24 hexadecimal digits. *)
Definition isHexDigit (a : Ascii.ascii) : bool :=
  let n := Ascii.nat_of_ascii a in
  (48 <=? n)%nat && (n <=? 57)%nat
  || (97 <=? n)%nat && (n <=? 102)%nat
  || (65 <=? n)%nat && (n <=? 70)%nat.

Definition hex24 (x : string) : bool :=
  (String.length x =? 24)%nat && forallb isHexDigit (String.list_ascii_of_string x).

(** ** Route registration *)

Inductive Method := GET | PUT.

(** The four handler properties of the controller instance. *)
Inductive Handler :=
| HFindAllTuitsDislikedByUser
| HFindAllUsersThatDislikedTuit
| HUserTogglesTuitDislikes
| HUserAlreadyDislikedTuit.

Record Route := mkRoute {
  route_method : Method;
  route_path : string;
  route_handler : Handler
}.

(** The controller object; the class declares no instance state. *)
Inductive Controller := NewDislikeController.

(** [DislikeController.getInstance]: the private static [dislikeController]
    is [None] while null; an Express app is the list of the routes declared
    on it, in order of declaration. *)
Definition getInstance (app : list Route) (dislikeController : option Controller)
  : Controller * option Controller * list Route :=
  match dislikeController with
  | None =>
      (NewDislikeController, Some NewDislikeController,
       (app ++ [mkRoute GET "/api/users/:uid/dislikes" HFindAllTuitsDislikedByUser;
                mkRoute GET "/api/tuits/:tid/dislikes" HFindAllUsersThatDislikedTuit;
                mkRoute PUT "/api/users/:uid/dislikes/:tid" HUserTogglesTuitDislikes;
                mkRoute GET "/api/users/:uid/dislikes/:tid" HUserAlreadyDislikedTuit])%list)
  | Some c => (c, Some c, app)
  end.

(** [getInstance] called once on each app of a list, in order. *)
Fixpoint getInstances (apps : list (list Route)) (dislikeController : option Controller)
  : list (list Route) * option Controller :=
  match apps with
  | [] => ([], dislikeController)
  | app :: apps' =>
      let '(_, static', app') := getInstance app dislikeController in
      let '(rest, static'') := getInstances apps' static' in
      (app' :: rest, static'')
  end.

(** ** Handlers that always answer *)

(** Every path through the tree ends in a response that satisfies [P],
    whatever the awaited calls settle to. *)
Inductive Answers {R : Type} (P : R -> Prop) : Prog R -> Prop :=
| Answers_Ret (r : R) : P r -> Answers P (Ret r)
| Answers_Await {A : Type} (c : Call A) (k : Exn + A -> Prog R) :
    (forall a, Answers P (k a)) -> Answers P (Await c k).

(** The same for the body of a [try]: a path may also end in a throw. *)
Inductive AnswersOrThrows {R : Type} (P : R -> Prop) : Prog R -> Prop :=
| AnswersOrThrows_Ret (r : R) : P r -> AnswersOrThrows P (Ret r)
| AnswersOrThrows_Throw (e : Exn) : AnswersOrThrows P (Throw e)
| AnswersOrThrows_Await {A : Type} (c : Call A) (k : Exn + A -> Prog R) :
    (forall a, AnswersOrThrows P (k a)) -> AnswersOrThrows P (Await c k).

(** The statuses a toggle sends. *)
Definition toggleStatus (r : Response Empty_set) : Prop :=
  r = SendStatus 200 \/ r = SendStatus 403 \/ r = SendStatus 404.

(** * Properties *)

(** ** The collection operations *)

Section Collection.

Variables p q : Dislike -> bool.

Lemma find_none_filter (l : list Dislike) :
  List.find p l = None <-> List.filter p l = [].
Proof.
  induction l as [|d l IH]; simpl; [tauto|].
  destruct (p d); [split; discriminate | exact IH].
Qed.

Lemma find_some_holds (l : list Dislike) (d : Dislike) :
  List.find p l = Some d -> p d = true.
Proof. intros H. apply List.find_some in H. tauto. Qed.

Lemma find_some_filter (l : list Dislike) (d : Dislike) :
  List.find p l = Some d -> 1 <= length (List.filter p l).
Proof.
  induction l as [|e l IH]; simpl; [discriminate|].
  destruct (p e); simpl; [lia | exact IH].
Qed.

(** Deleting the first [p]-document takes one away from every count that
    covers [p]. *)
Lemma filter_deleteOne_covered (l : list Dislike) :
  (forall d, p d = true -> q d = true) ->
  List.find p l <> None ->
  S (length (List.filter q (deleteOne p l))) = length (List.filter q l).
Proof.
  intros Hpq. induction l as [|e l IH]; simpl; [congruence|].
  destruct (p e) eqn:Hp.
  - intros _. now rewrite (Hpq e Hp).
  - intros Hf. specialize (IH Hf). simpl. destruct (q e); simpl; lia.
Qed.

Lemma filter_deleteOne_absent (l : list Dislike) :
  List.find p l = None -> deleteOne p l = l.
Proof.
  induction l as [|e l IH]; simpl; [reflexivity|].
  destruct (p e); [discriminate|]. intros H. now rewrite IH.
Qed.

(** ... and leaves every count disjoint from [p] alone. *)
Lemma filter_deleteOne_disjoint (l : list Dislike) :
  (forall d, p d = true -> q d = false) ->
  List.filter q (deleteOne p l) = List.filter q l.
Proof.
  intros Hpq. induction l as [|e l IH]; simpl; [reflexivity|].
  destruct (p e) eqn:Hp.
  - now rewrite (Hpq e Hp).
  - simpl. now rewrite IH.
Qed.

Lemma filter_snoc (l : list Dislike) (d : Dislike) :
  List.filter q (l ++ [d]) =
  (List.filter q l ++ (if q d then [d] else []))%list.
Proof. rewrite List.filter_app. reflexivity. Qed.

End Collection.

Lemma byPair_byTuit (u t : string) (d : Dislike) :
  byPair u t d = true -> byTuit t d = true.
Proof. unfold byPair, byTuit. intros H. apply andb_true_iff in H. tauto. Qed.

Lemma byPair_true (u t : string) (d : Dislike) :
  byPair u t d = true <-> tuit d = t /\ dislikedBy d = u.
Proof.
  unfold byPair. rewrite andb_true_iff, !String.eqb_eq. tauto.
Qed.

Lemma byPair_self (u t : string) : byPair u t (mkDislike t u) = true.
Proof. apply byPair_true. auto. Qed.

Lemma byPair_other_tuit (u t t' : string) (d : Dislike) :
  t <> t' -> byPair u t d = true -> byTuit t' d = false.
Proof.
  intros Hne H. apply byPair_true in H. destruct H as [H _].
  unfold byTuit. apply String.eqb_neq. congruence.
Qed.

Lemma byPair_other_pair (u t u' t' : string) (d : Dislike) :
  (u, t) <> (u', t') -> byPair u t d = true -> byPair u' t' d = false.
Proof.
  intros Hne H. apply byPair_true in H. destruct H as [H1 H2].
  destruct (byPair u' t' d) eqn:E; [|reflexivity].
  apply byPair_true in E. destruct E. exfalso. apply Hne. congruence.
Qed.

(** ** A toggle without interleaving, case by case *)

Section ToggleCases.

Variable req : Request.
Variable s : Store.

Let u := DislikeController.userIdOf (uid (params req)) (session_profile req).
Let t := tid (params req).

Lemma toggle_unauthenticated :
  DislikeController.meWithoutProfile (uid (params req)) (session_profile req) = true ->
  run (DislikeController.userTogglesTuitDislikes req) s =
  mkOutcome (inr (SendStatus 403)) s [].
Proof.
  intros Hg. unfold DislikeController.userTogglesTuitDislikes.
  rewrite Hg. reflexivity.
Qed.

Hypothesis Hauth :
  DislikeController.meWithoutProfile (uid (params req)) (session_profile req) = false.

Lemma toggle_undislike (d : Dislike) (x : Tuit) :
  DislikeDao.findUserDislikesTuit u t s = Some d ->
  tuitColl s !! t = Some x ->
  let n := (DislikeDao.countHowManyDislikedTuit t s - 1)%Z in
  let newStats := mkStats n (otherStats (stats x)) in
  run (DislikeController.userTogglesTuitDislikes req) s =
  mkOutcome (inr (SendStatus 200))
    (mkStore (deleteOne (byPair u t) (dislikeColl s))
             (<[t := mkTuit (postedBy x) newStats]> (tuitColl s))
             (userColl s))
    [Ev (FindUserDislikesTuit u t) (inr (Some d));
     Ev (CountHowManyDislikedTuit t)
        (inr (DislikeDao.countHowManyDislikedTuit t s));
     Ev (FindTuitById t) (inr (Some x));
     Ev (UserUnDislikesTuit u t) (inr tt);
     Ev (UpdateDislikes t newStats) (inr tt)].
Proof.
  intros Hf Hx n newStats.
  unfold DislikeController.userTogglesTuitDislikes.
  rewrite Hauth. fold u t. simpl. rewrite Hf. simpl.
  unfold TuitDao.findTuitById. rewrite Hx. simpl.
  unfold TuitDao.updateDislikes. simpl. rewrite Hx. reflexivity.
Qed.

Lemma toggle_dislike (x : Tuit) :
  DislikeDao.findUserDislikesTuit u t s = None ->
  tuitColl s !! t = Some x ->
  let n := (DislikeDao.countHowManyDislikedTuit t s + 1)%Z in
  let newStats := mkStats n (otherStats (stats x)) in
  run (DislikeController.userTogglesTuitDislikes req) s =
  mkOutcome (inr (SendStatus 200))
    (mkStore (dislikeColl s ++ [mkDislike t u])
             (<[t := mkTuit (postedBy x) newStats]> (tuitColl s))
             (userColl s))
    [Ev (FindUserDislikesTuit u t) (inr None);
     Ev (CountHowManyDislikedTuit t)
        (inr (DislikeDao.countHowManyDislikedTuit t s));
     Ev (FindTuitById t) (inr (Some x));
     Ev (UserDislikesTuit u t) (inr (mkDislike t u));
     Ev (UpdateDislikes t newStats) (inr tt)].
Proof.
  intros Hf Hx n newStats.
  unfold DislikeController.userTogglesTuitDislikes.
  rewrite Hauth. fold u t. simpl. rewrite Hf. simpl.
  unfold TuitDao.findTuitById. rewrite Hx. simpl.
  unfold TuitDao.updateDislikes. simpl. rewrite Hx. reflexivity.
Qed.

(** The item does not resolve and its read yields null ([exec]): the edge
    is changed first, then the assignment to [tuit.stats] throws and the
    handler answers 404.  [toggleCast_missing] is the same request when the
    read is rejected. *)
Lemma toggle_undislike_missing (d : Dislike) :
  DislikeDao.findUserDislikesTuit u t s = Some d ->
  tuitColl s !! t = None ->
  run (DislikeController.userTogglesTuitDislikes req) s =
  mkOutcome (inr (SendStatus 404))
    (mkStore (deleteOne (byPair u t) (dislikeColl s)) (tuitColl s) (userColl s))
    [Ev (FindUserDislikesTuit u t) (inr (Some d));
     Ev (CountHowManyDislikedTuit t)
        (inr (DislikeDao.countHowManyDislikedTuit t s));
     Ev (FindTuitById t) (inr None);
     Ev (UserUnDislikesTuit u t) (inr tt)].
Proof.
  intros Hf Hx.
  unfold DislikeController.userTogglesTuitDislikes.
  rewrite Hauth. fold u t. simpl. rewrite Hf. simpl.
  unfold TuitDao.findTuitById. rewrite Hx. reflexivity.
Qed.

Lemma toggle_dislike_missing :
  DislikeDao.findUserDislikesTuit u t s = None ->
  tuitColl s !! t = None ->
  run (DislikeController.userTogglesTuitDislikes req) s =
  mkOutcome (inr (SendStatus 404))
    (mkStore (dislikeColl s ++ [mkDislike t u]) (tuitColl s) (userColl s))
    [Ev (FindUserDislikesTuit u t) (inr None);
     Ev (CountHowManyDislikedTuit t)
        (inr (DislikeDao.countHowManyDislikedTuit t s));
     Ev (FindTuitById t) (inr None);
     Ev (UserDislikesTuit u t) (inr (mkDislike t u))].
Proof.
  intros Hf Hx.
  unfold DislikeController.userTogglesTuitDislikes.
  rewrite Hauth. fold u t. simpl. rewrite Hf. simpl.
  unfold TuitDao.findTuitById. rewrite Hx. reflexivity.
Qed.

End ToggleCases.

(** ** What a toggle does to the edges *)

Lemma toggledEdges_pair (u t : string) (l : list Dislike) :
  length (List.filter (byPair u t) (toggledEdges u t l)) =
  match length (List.filter (byPair u t) l) with
  | O => 1
  | S n => n
  end.
Proof.
  unfold toggledEdges. destruct (List.find (byPair u t) l) as [d|] eqn:Hf.
  - assert (H : List.find (byPair u t) l <> None) by congruence.
    apply (filter_deleteOne_covered (byPair u t) (byPair u t)) in H; [|auto].
    rewrite <- H. reflexivity.
  - rewrite filter_snoc, byPair_self.
    apply find_none_filter in Hf. rewrite Hf. reflexivity.
Qed.

Lemma toggledEdges_tuit (u t : string) (l : list Dislike) :
  Z.of_nat (length (List.filter (byTuit t) (toggledEdges u t l))) =
  match List.find (byPair u t) l with
  | Some _ => (Z.of_nat (length (List.filter (byTuit t) l)) - 1)%Z
  | None => (Z.of_nat (length (List.filter (byTuit t) l)) + 1)%Z
  end.
Proof.
  unfold toggledEdges. destruct (List.find (byPair u t) l) as [d|] eqn:Hf.
  - assert (H : List.find (byPair u t) l <> None) by congruence.
    apply (filter_deleteOne_covered (byPair u t) (byTuit t)) in H.
    + rewrite <- H. lia.
    + apply byPair_byTuit.
  - rewrite filter_snoc. unfold byTuit at 2. simpl.
    rewrite String.eqb_refl, length_app. simpl. lia.
Qed.

Lemma toggledEdges_disjoint (u t : string) (q : Dislike -> bool) (l : list Dislike) :
  (forall d, byPair u t d = true -> q d = false) ->
  List.filter q (toggledEdges u t l) = List.filter q l.
Proof.
  intros Hq. unfold toggledEdges. destruct (List.find (byPair u t) l).
  - apply filter_deleteOne_disjoint, Hq.
  - rewrite filter_snoc, (Hq _ (byPair_self u t)). apply app_nil_r.
Qed.

(** ** The store after a toggle without interleaving *)

Section ToggleFinal.

Variable req : Request.
Variable s : Store.

Let u := DislikeController.userIdOf (uid (params req)) (session_profile req).
Let t := tid (params req).
Let o := run (DislikeController.userTogglesTuitDislikes req) s.

Hypothesis Hauth :
  DislikeController.meWithoutProfile (uid (params req)) (session_profile req) = false.

Lemma toggle_edges : dislikeColl (final o) = toggledEdges u t (dislikeColl s).
Proof.
  subst o. unfold toggledEdges.
  destruct (List.find (byPair u t) (dislikeColl s)) as [d|] eqn:Hf;
    destruct (tuitColl s !! t) as [x|] eqn:Hx.
  - erewrite toggle_undislike; eauto.
  - erewrite toggle_undislike_missing; eauto.
  - erewrite toggle_dislike; eauto.
  - erewrite toggle_dislike_missing; eauto.
Qed.

Lemma toggle_tuits :
  tuitColl (final o) =
  match tuitColl s !! t with
  | Some x =>
      <[t := mkTuit (postedBy x)
               (mkStats (toggledCount u t s) (otherStats (stats x)))]> (tuitColl s)
  | None => tuitColl s
  end.
Proof.
  subst o. unfold toggledCount.
  destruct (DislikeDao.findUserDislikesTuit u t s) as [d|] eqn:Hf;
    destruct (tuitColl s !! t) as [x|] eqn:Hx.
  - erewrite toggle_undislike; eauto.
  - erewrite toggle_undislike_missing; eauto.
  - erewrite toggle_dislike; eauto.
  - erewrite toggle_dislike_missing; eauto.
Qed.

Lemma toggle_result :
  result o =
  inr (SendStatus (if bool_decide (is_Some (tuitColl s !! t)) then 200 else 404)).
Proof.
  subst o.
  destruct (DislikeDao.findUserDislikesTuit u t s) as [d|] eqn:Hf;
    destruct (tuitColl s !! t) as [x|] eqn:Hx.
  - erewrite toggle_undislike; eauto.
  - erewrite toggle_undislike_missing; eauto.
  - erewrite toggle_dislike; eauto.
  - erewrite toggle_dislike_missing; eauto.
Qed.

Lemma toggle_counterWrites :
  counterWrites (log o) =
  match tuitColl s !! t with
  | Some _ => [(t, toggledCount u t s)]
  | None => []
  end.
Proof.
  subst o. unfold toggledCount.
  destruct (DislikeDao.findUserDislikesTuit u t s) as [d|] eqn:Hf;
    destruct (tuitColl s !! t) as [x|] eqn:Hx.
  - erewrite toggle_undislike; eauto.
  - erewrite toggle_undislike_missing; eauto.
  - erewrite toggle_dislike; eauto.
  - erewrite toggle_dislike_missing; eauto.
Qed.

End ToggleFinal.

(** ** The read-only handlers *)

Lemma run_findAllUsersThatDislikedTuit (req : Request) (s : Store) :
  run (DislikeController.findAllUsersThatDislikedTuit req) s =
  mkOutcome
    (inr (Json (DislikeDao.findAllUsersThatDislikedTuit (tid (params req)) s)))
    s [Ev (FindAllUsersThatDislikedTuit (tid (params req)))
          (inr (DislikeDao.findAllUsersThatDislikedTuit (tid (params req)) s))].
Proof. reflexivity. Qed.

Lemma run_findAllTuitsDislikedByUser (req : Request) (s : Store) :
  run (DislikeController.findAllTuitsDislikedByUser req) s =
  if DislikeController.meWithoutProfile (uid (params req)) (session_profile req)
  then mkOutcome (inr (SendStatus 403)) s []
  else
    let u := DislikeController.userIdOf (uid (params req)) (session_profile req) in
    mkOutcome
      (inr (Json (DislikeController.tuitsFromDislikes
                    (DislikeDao.findAllTuitsDislikedByUser u s))))
      s [Ev (FindAllTuitsDislikedByUser u)
            (inr (DislikeDao.findAllTuitsDislikedByUser u s))].
Proof.
  unfold DislikeController.findAllTuitsDislikedByUser.
  destruct (DislikeController.meWithoutProfile _ _); reflexivity.
Qed.

Lemma run_userAlreadyDislikedTuit (req : Request) (s : Store) :
  run (DislikeController.userAlreadyDislikedTuit req) s =
  if DislikeController.meWithoutProfile (uid (params req)) (session_profile req)
  then mkOutcome (inr (SendStatus 403)) s []
  else
    let u := DislikeController.userIdOf (uid (params req)) (session_profile req) in
    mkOutcome
      (inr (Json (DislikeDao.findUserDislikesTuit u (tid (params req)) s)))
      s [Ev (FindUserDislikesTuit u (tid (params req)))
            (inr (DislikeDao.findUserDislikesTuit u (tid (params req)) s))].
Proof.
  unfold DislikeController.userAlreadyDislikedTuit.
  destruct (DislikeController.meWithoutProfile _ _); reflexivity.
Qed.

(** The filter-then-map of the controller keeps, in order, the tuits of the
    dislikes whose reference resolved. *)
Lemma tuitsFromDislikes_omap (l : list DislikeWithTuit) :
  DislikeController.tuitsFromDislikes l = omap dt_tuit l.
Proof.
  unfold DislikeController.tuitsFromDislikes.
  induction l as [|d l IH]; simpl; [reflexivity|].
  destruct (dt_tuit d) as [x|] eqn:E; simpl.
  - rewrite E. simpl. f_equal. exact IH.
  - exact IH.
Qed.

Lemma tuitsDislikedBy_omap (u : string) (s : Store) :
  DislikeController.tuitsFromDislikes (DislikeDao.findAllTuitsDislikedByUser u s) =
  omap (fun d => DislikeDao.populateTuit s (tuit d))
       (List.filter (byUser u) (dislikeColl s)).
Proof.
  rewrite tuitsFromDislikes_omap. unfold DislikeDao.findAllTuitsDislikedByUser.
  induction (List.filter (byUser u) (dislikeColl s)) as [|d l IH]; simpl;
    [reflexivity|].
  destruct (DislikeDao.populateTuit s (tuit d)); simpl; [f_equal|]; exact IH.
Qed.

Lemma populateTuit_id (s : Store) (t : string) (x : TuitWithPoster) :
  DislikeDao.populateTuit s t = Some x -> tp_id x = t /\ is_Some (tuitColl s !! t).
Proof.
  unfold DislikeDao.populateTuit. destruct (tuitColl s !! t); [|discriminate].
  intros [= <-]. split; [reflexivity | eauto].
Qed.

(** ** Claims about the guards and the queries *)

(** C6: with the "me" alias and no profile in the session, the toggle and
    the dislike-status check both answer 403 and reach the store with no
    call at all: the log is empty and the store is the one they started in. *)
Theorem me_without_profile_is_rejected_before_the_store (t : string) (s : Store) :
  run (DislikeController.userTogglesTuitDislikes
         (mkRequest (mkParams "me" t) None)) s =
    mkOutcome (inr (SendStatus 403)) s []
  /\ run (DislikeController.userAlreadyDislikedTuit
            (mkRequest (mkParams "me" t) None)) s =
    mkOutcome (inr (SendStatus 403)) s [].
Proof. split; reflexivity. Qed.

(** With a dangling dislike in the collection, the listing is the one tuit
    that resolves. *)
Example dislikedItems_with_a_dangling_dislike :
  result (run (DislikeController.findAllTuitsDislikedByUser (toggleBy alice tuit1))
              (sampleStore [aliceDislike; mkDislike tuit9 alice; mkDislike tuit1 bob] 2)) =
  inr (Json [mkTuitWithPoster tuit1 (Some (mkUser "bob"))
                              (mkStats 2 [("likes", 0%Z)])]).
Proof. vm_compute. reflexivity. Qed.

(** C8: listing the dislikers of an item, listing the items disliked by an
    actor and the presence check end in the store they started in, whatever
    the request: the edges and every cached counter are untouched. *)
Theorem queries_leave_the_store_unchanged (req : Request) (s : Store) :
  final (run (DislikeController.findAllUsersThatDislikedTuit req) s) = s
  /\ final (run (DislikeController.findAllTuitsDislikedByUser req) s) = s
  /\ final (run (DislikeController.userAlreadyDislikedTuit req) s) = s.
Proof.
  rewrite run_findAllUsersThatDislikedTuit, run_findAllTuitsDislikedByUser,
    run_userAlreadyDislikedTuit.
  destruct (DislikeController.meWithoutProfile _ _); auto.
Qed.

(** C10: listing the dislikers of an item never looks at the session: two
    requests with the same parameters run alike whatever their profiles,
    with the one store query on the item, and the answer is the list, never
    a 403. *)
Theorem dislikers_listing_ignores_the_session
    (p : Params) (profile1 profile2 : option Profile) (s : Store) :
  run (DislikeController.findAllUsersThatDislikedTuit (mkRequest p profile1)) s =
  run (DislikeController.findAllUsersThatDislikedTuit (mkRequest p profile2)) s
  /\ log (run (DislikeController.findAllUsersThatDislikedTuit (mkRequest p profile1)) s) =
     [Ev (FindAllUsersThatDislikedTuit (tid p))
         (inr (DislikeDao.findAllUsersThatDislikedTuit (tid p) s))]
  /\ result (run (DislikeController.findAllUsersThatDislikedTuit (mkRequest p profile1)) s) =
     inr (Json (DislikeDao.findAllUsersThatDislikedTuit (tid p) s))
  /\ result (run (DislikeController.findAllUsersThatDislikedTuit (mkRequest p profile1)) s) <>
     inr (SendStatus 403).
Proof.
  rewrite !run_findAllUsersThatDislikedTuit. simpl.
  repeat split; discriminate.
Qed.

(** ** Counts after a toggle without interleaving *)

Lemma find_pairCount (s : Store) (u t : string) :
  DislikeDao.findUserDislikesTuit u t s = None <-> pairCount s u t = 0.
Proof.
  unfold DislikeDao.findUserDislikesTuit, pairCount.
  rewrite find_none_filter. split.
  - intros ->. reflexivity.
  - apply nil_length_inv.
Qed.

Lemma find_some_pairCount (s : Store) (u t : string) :
  is_Some (DislikeDao.findUserDislikesTuit u t s) <-> pairCount s u t <> 0.
Proof.
  rewrite <- find_pairCount.
  destruct (DislikeDao.findUserDislikesTuit u t s); split; intros H.
  - discriminate.
  - eauto.
  - destruct H; discriminate.
  - congruence.
Qed.

Section ToggleCounts.

Variable req : Request.
Variable s : Store.

Let u := DislikeController.userIdOf (uid (params req)) (session_profile req).
Let t := tid (params req).
Let o := run (DislikeController.userTogglesTuitDislikes req) s.

Lemma toggle_count_other (t' : string) :
  t <> t' ->
  DislikeDao.countHowManyDislikedTuit t' (final o) =
  DislikeDao.countHowManyDislikedTuit t' s.
Proof.
  intros Hne. subst o.
  destruct (DislikeController.meWithoutProfile (uid (params req))
              (session_profile req)) eqn:Hg.
  - now rewrite toggle_unauthenticated.
  - unfold DislikeDao.countHowManyDislikedTuit.
    rewrite toggle_edges by exact Hg.
    rewrite toggledEdges_disjoint; [reflexivity|].
    intros d. now apply byPair_other_tuit.
Qed.

Lemma toggle_cached_other (t' : string) :
  t <> t' -> cachedDislikes (final o) t' = cachedDislikes s t'.
Proof.
  intros Hne. subst o.
  destruct (DislikeController.meWithoutProfile (uid (params req))
              (session_profile req)) eqn:Hg.
  - now rewrite toggle_unauthenticated.
  - unfold cachedDislikes. rewrite toggle_tuits by exact Hg.
    fold t. destruct (tuitColl s !! t); [|reflexivity].
    now rewrite lookup_insert_ne.
Qed.

Lemma toggle_pairCount_other (u' t' : string) :
  (u, t) <> (u', t') -> pairCount (final o) u' t' = pairCount s u' t'.
Proof.
  intros Hne. subst o.
  destruct (DislikeController.meWithoutProfile (uid (params req))
              (session_profile req)) eqn:Hg.
  - now rewrite toggle_unauthenticated.
  - unfold pairCount. rewrite toggle_edges by exact Hg.
    rewrite toggledEdges_disjoint; [reflexivity|].
    intros d. now apply byPair_other_pair.
Qed.

Hypothesis Hauth :
  DislikeController.meWithoutProfile (uid (params req)) (session_profile req) = false.

Lemma toggle_pairCount :
  pairCount (final o) u t =
  match pairCount s u t with
  | O => 1
  | S n => n
  end.
Proof.
  subst o. unfold pairCount. rewrite toggle_edges by exact Hauth.
  apply toggledEdges_pair.
Qed.

Lemma toggle_count :
  DislikeDao.countHowManyDislikedTuit t (final o) = toggledCount u t s.
Proof.
  subst o. unfold DislikeDao.countHowManyDislikedTuit at 1.
  rewrite toggle_edges by exact Hauth.
  apply toggledEdges_tuit.
Qed.

Lemma toggle_cached (x : Tuit) :
  tuitColl s !! t = Some x ->
  cachedDislikes (final o) t = Some (toggledCount u t s).
Proof.
  intros Hx. subst o. unfold cachedDislikes.
  rewrite toggle_tuits by exact Hauth. fold t. rewrite Hx.
  now rewrite lookup_insert_eq.
Qed.

End ToggleCounts.

(** ** Claims about the toggle *)

(** C1, as stated, fails: in [undislikeRace] the first request finds the
    edge, reads the count 0 after the other request removed the edge, and
    writes 0 - 1 = -1 to the item; nothing clamps the value. *)
Lemma undislike_race_writes_minus_one :
  log (fst undislikeRace) =
    [Ev (FindUserDislikesTuit alice tuit1) (inr (Some aliceDislike));
     Ev (CountHowManyDislikedTuit tuit1) (inr 0%Z);
     Ev (FindTuitById tuit1) (inr (Some (sampleTuit 0)));
     Ev (UserUnDislikesTuit alice tuit1) (inr tt);
     Ev (UpdateDislikes tuit1 (mkStats (-1) [("likes", 0%Z)])) (inr tt)]
  /\ counterWrites (log (fst undislikeRace)) = [(tuit1, (-1)%Z)]
  /\ cachedDislikes (final (fst undislikeRace)) tuit1 = Some (-1)%Z
  /\ (-1)%Z <> Z.max 0 (0 - 1).
Proof. vm_compute. repeat split; discriminate. Qed.

(** C1, amended: a toggle that finds the edge writes the count it read minus
    one, unclamped; run without interleaving, the count includes the edge
    found, so it is at least 1 and the value written is not negative (and
    is what a floor at 0 would give). *)
Theorem undislike_writes_count_minus_one
    (req : Request) (s : Store) (d : Dislike) (x : Tuit) :
  DislikeController.meWithoutProfile (uid (params req)) (session_profile req) = false ->
  DislikeDao.findUserDislikesTuit
    (DislikeController.userIdOf (uid (params req)) (session_profile req))
    (tid (params req)) s = Some d ->
  tuitColl s !! tid (params req) = Some x ->
  let o := run (DislikeController.userTogglesTuitDislikes req) s in
  let c := DislikeDao.countHowManyDislikedTuit (tid (params req)) s in
  In (Ev (CountHowManyDislikedTuit (tid (params req))) (inr c)) (log o)
  /\ counterWrites (log o) = [(tid (params req), (c - 1)%Z)]
  /\ cachedDislikes (final o) (tid (params req)) = Some (c - 1)%Z
  /\ (1 <= c)%Z
  /\ (c - 1)%Z = Z.max 0 (c - 1).
Proof.
  intros Hauth Hf Hx o c.
  assert (Hc : (1 <= c)%Z).
  { subst c. unfold DislikeDao.countHowManyDislikedTuit.
    assert (H : List.find (byPair
               (DislikeController.userIdOf (uid (params req)) (session_profile req))
               (tid (params req))) (dislikeColl s) <> None)
      by (unfold DislikeDao.findUserDislikesTuit in Hf; congruence).
    apply (filter_deleteOne_covered _ (byTuit (tid (params req)))) in H.
    - rewrite <- H. lia.
    - apply byPair_byTuit. }
  subst o. rewrite (toggle_undislike req s Hauth d x Hf Hx).
  unfold cachedDislikes. simpl. rewrite lookup_insert_eq. simpl.
  repeat split; auto. lia.
Qed.

Lemma undislike_writes_count_minus_one_witness :
  let o := run (aliceToggles tuit1) (sampleStore [aliceDislike] 1) in
  In (Ev (CountHowManyDislikedTuit tuit1) (inr 1%Z)) (log o)
  /\ counterWrites (log o) = [(tuit1, 0%Z)]
  /\ cachedDislikes (final o) tuit1 = Some 0%Z
  /\ (1 <= 1)%Z
  /\ 0%Z = Z.max 0 0.
Proof.
  exact (undislike_writes_count_minus_one
           (toggleBy alice tuit1) (sampleStore [aliceDislike] 1)
           aliceDislike (sampleTuit 1) eq_refl eq_refl eq_refl).
Defined.

(** C2, as stated, fails: inserting a dislike for a pair that has one
    succeeds and leaves two records of the pair; two toggles racing from
    the empty collection leave such a store behind. *)
Lemma create_accepts_a_duplicate :
  exec (UserDislikesTuit alice tuit1) (sampleStore [aliceDislike] 1) =
    (inr aliceDislike, sampleStore [aliceDislike; aliceDislike] 1)
  /\ pairCount (sampleStore [aliceDislike; aliceDislike] 1) alice tuit1 = 2
  /\ dislikeColl (final (snd dislikeRace)) = [aliceDislike; aliceDislike].
Proof. vm_compute. repeat split. Qed.

(** C9: when the pair has n > 1 edge records, a toggle finds the pair
    disliked, deletes one record only, and leaves n - 1 of them: the pair is
    still found disliked afterwards. *)
Theorem undislike_removes_one_record (req : Request) (s : Store) (n : nat) :
  DislikeController.meWithoutProfile (uid (params req)) (session_profile req) = false ->
  pairCount s (DislikeController.userIdOf (uid (params req)) (session_profile req))
            (tid (params req)) = n ->
  1 < n ->
  let u := DislikeController.userIdOf (uid (params req)) (session_profile req) in
  let t := tid (params req) in
  let o := run (DislikeController.userTogglesTuitDislikes req) s in
  is_Some (DislikeDao.findUserDislikesTuit u t s)
  /\ dislikeColl (final o) = deleteOne (byPair u t) (dislikeColl s)
  /\ pairCount (final o) u t = n - 1
  /\ n - 1 <= pairCount (final o) u t
  /\ is_Some (DislikeDao.findUserDislikesTuit u t (final o)).
Proof.
  intros Hauth Hn Hlt u t o.
  assert (Hcnt : pairCount (final o) u t = n - 1).
  { subst o u t. rewrite toggle_pairCount by exact Hauth. rewrite Hn.
    destruct n; lia. }
  assert (Hbefore : is_Some (DislikeDao.findUserDislikesTuit u t s)).
  { destruct (DislikeDao.findUserDislikesTuit u t s) eqn:E; [eauto|].
    apply find_pairCount in E. subst u t. lia. }
  split; [exact Hbefore|]. split; [|split; [exact Hcnt|split; [lia|]]].
  - subst o. rewrite toggle_edges by exact Hauth. unfold toggledEdges.
    destruct Hbefore as [d Hd]. unfold DislikeDao.findUserDislikesTuit in Hd.
    fold u t. now rewrite Hd.
  - destruct (DislikeDao.findUserDislikesTuit u t (final o)) eqn:E; [eauto|].
    apply find_pairCount in E. lia.
Qed.

Lemma undislike_removes_one_record_witness :
  let s := sampleStore [aliceDislike; aliceDislike] 2 in
  let o := run (aliceToggles tuit1) s in
  is_Some (DislikeDao.findUserDislikesTuit alice tuit1 s)
  /\ dislikeColl (final o) = deleteOne (byPair alice tuit1) (dislikeColl s)
  /\ pairCount (final o) alice tuit1 = 2 - 1
  /\ 2 - 1 <= pairCount (final o) alice tuit1
  /\ is_Some (DislikeDao.findUserDislikesTuit alice tuit1 (final o)).
Proof.
  apply (undislike_removes_one_record
           (toggleBy alice tuit1)
           (sampleStore [aliceDislike; aliceDislike] 2) 2);
    [reflexivity | reflexivity | lia].
Defined.

(** C4, as stated, fails: from a store with two records of the pair, two
    toggles in succession delete both; the pair started disliked and ends
    not disliked, and the count of the item goes from 2 to 0. *)
Lemma double_toggle_on_duplicate_edges :
  let s := sampleStore [aliceDislike; aliceDislike] 2 in
  let s2 := snd (serveToggles [toggleBy alice tuit1; toggleBy alice tuit1] s) in
  fst (serveToggles [toggleBy alice tuit1; toggleBy alice tuit1] s) =
    [inr (SendStatus 200); inr (SendStatus 200)]
  /\ DislikeDao.findUserDislikesTuit alice tuit1 s = Some aliceDislike
  /\ DislikeDao.findUserDislikesTuit alice tuit1 s2 = None
  /\ DislikeDao.countHowManyDislikedTuit tuit1 s = 2%Z
  /\ DislikeDao.countHowManyDislikedTuit tuit1 s2 = 0%Z.
Proof. vm_compute. repeat split. Qed.

(** C4, amended: from every store in which the pair has at most one edge
    record, two toggles in succession bring the pair back to its edge
    presence and the item back to its authoritative count. *)
Theorem double_toggle_restores (req : Request) (s : Store) :
  pairCount s (DislikeController.userIdOf (uid (params req)) (session_profile req))
            (tid (params req)) <= 1 ->
  let u := DislikeController.userIdOf (uid (params req)) (session_profile req) in
  let t := tid (params req) in
  let s2 := snd (serveToggles [req; req] s) in
  pairCount s2 u t = pairCount s u t
  /\ (is_Some (DislikeDao.findUserDislikesTuit u t s2) <->
      is_Some (DislikeDao.findUserDislikesTuit u t s))
  /\ DislikeDao.countHowManyDislikedTuit t s2 =
     DislikeDao.countHowManyDislikedTuit t s.
Proof.
  intros Hle u t s2.
  assert (Hs2 : s2 = final (run (DislikeController.userTogglesTuitDislikes req)
                       (final (run (DislikeController.userTogglesTuitDislikes req) s))))
    by reflexivity.
  destruct (DislikeController.meWithoutProfile (uid (params req))
              (session_profile req)) eqn:Hg.
  { rewrite !toggle_unauthenticated in Hs2 by exact Hg. simpl in Hs2.
    rewrite Hs2. tauto. }
  set (s1 := final (run (DislikeController.userTogglesTuitDislikes req) s)) in *.
  assert (H1 : pairCount s1 u t = match pairCount s u t with O => 1 | S n => n end)
    by (apply toggle_pairCount; exact Hg).
  assert (H2 : pairCount s2 u t = match pairCount s1 u t with O => 1 | S n => n end)
    by (rewrite Hs2; apply toggle_pairCount; exact Hg).
  assert (C1 : DislikeDao.countHowManyDislikedTuit t s1 = toggledCount u t s)
    by (apply toggle_count; exact Hg).
  assert (C2 : DislikeDao.countHowManyDislikedTuit t s2 = toggledCount u t s1)
    by (rewrite Hs2; apply toggle_count; exact Hg).
  assert (Hpc : pairCount s2 u t = pairCount s u t).
  { rewrite H2, H1. fold u t in Hle. destruct (pairCount s u t) as [|[|n]]; simpl; lia. }
  split; [exact Hpc|]. split.
  - now rewrite !find_some_pairCount, Hpc.
  - rewrite C2. unfold toggledCount at 1. rewrite C1. unfold toggledCount.
    fold u t in Hle.
    destruct (DislikeDao.findUserDislikesTuit u t s) eqn:E.
    + assert (pairCount s u t <> 0) by (rewrite <- find_pairCount; congruence).
      assert (P1 : pairCount s1 u t = 0)
        by (rewrite H1; destruct (pairCount s u t) as [|[|n]]; lia).
      apply find_pairCount in P1. rewrite P1. lia.
    + apply find_pairCount in E.
      assert (P1 : pairCount s1 u t <> 0) by (rewrite H1, E; lia).
      destruct (DislikeDao.findUserDislikesTuit u t s1) eqn:E1.
      * lia.
      * apply find_pairCount in E1. contradiction.
Qed.

Lemma double_toggle_restores_witness :
  let s := sampleStore [aliceDislike] 1 in
  let s2 := snd (serveToggles [toggleBy alice tuit1; toggleBy alice tuit1] s) in
  pairCount s2 alice tuit1 = pairCount s alice tuit1
  /\ (is_Some (DislikeDao.findUserDislikesTuit alice tuit1 s2) <->
      is_Some (DislikeDao.findUserDislikesTuit alice tuit1 s))
  /\ DislikeDao.countHowManyDislikedTuit tuit1 s2 =
     DislikeDao.countHowManyDislikedTuit tuit1 s.
Proof.
  apply (double_toggle_restores (toggleBy alice tuit1) (sampleStore [aliceDislike] 1)).
  vm_compute. lia.
Defined.

(** ** Counter correctness at rest *)

Lemma toggle_success_inv (req : Request) (s : Store) :
  result (run (DislikeController.userTogglesTuitDislikes req) s) =
    inr (SendStatus 200) ->
  DislikeController.meWithoutProfile (uid (params req)) (session_profile req) = false
  /\ is_Some (tuitColl s !! tid (params req)).
Proof.
  destruct (DislikeController.meWithoutProfile (uid (params req))
              (session_profile req)) eqn:Hg.
  - rewrite toggle_unauthenticated by exact Hg. discriminate.
  - rewrite toggle_result by exact Hg.
    destruct (tuitColl s !! tid (params req)); [eauto | discriminate].
Qed.

Lemma toggle_establishes_counterAgrees (req : Request) (s : Store) :
  DislikeController.meWithoutProfile (uid (params req)) (session_profile req) = false ->
  is_Some (tuitColl s !! tid (params req)) ->
  counterAgrees (final (run (DislikeController.userTogglesTuitDislikes req) s))
                (tid (params req)).
Proof.
  intros Hg [x Hx]. unfold counterAgrees.
  rewrite (toggle_cached req s Hg x Hx), toggle_count by exact Hg. reflexivity.
Qed.

Lemma toggle_preserves_counterAgrees (req : Request) (s : Store) (item : string) :
  counterAgrees s item ->
  counterAgrees (final (run (DislikeController.userTogglesTuitDislikes req) s)) item.
Proof.
  intros Hagree.
  destruct (decide (tid (params req) = item)) as [<-|Hne].
  - destruct (DislikeController.meWithoutProfile (uid (params req))
                (session_profile req)) eqn:Hg.
    + now rewrite toggle_unauthenticated.
    + apply toggle_establishes_counterAgrees; [exact Hg|].
      unfold counterAgrees, cachedDislikes in Hagree.
      destruct (tuitColl s !! tid (params req)); [eauto | discriminate].
  - unfold counterAgrees.
    rewrite toggle_cached_other, toggle_count_other by exact Hne. exact Hagree.
Qed.

Lemma serveToggles_cons (req : Request) (reqs : list Request) (s : Store) :
  serveToggles (req :: reqs) s =
  let o := run (DislikeController.userTogglesTuitDislikes req) s in
  (result o :: fst (serveToggles reqs (final o)),
   snd (serveToggles reqs (final o))).
Proof. simpl. destruct (serveToggles reqs _). reflexivity. Qed.

Lemma serveToggles_preserves_counterAgrees
    (reqs : list Request) (s : Store) (item : string) :
  counterAgrees s item -> counterAgrees (snd (serveToggles reqs s)) item.
Proof.
  revert s. induction reqs as [|req reqs IH]; intros s Hagree; [exact Hagree|].
  rewrite serveToggles_cons. simpl.
  apply IH, toggle_preserves_counterAgrees, Hagree.
Qed.

(** C5: after toggles served one after the other, all of them answered
    200, the counter cached on the item is the number of edges of the item,
    provided one of the toggles at least was on the item (whatever the
    counter was at the start) or the two agreed at the start. *)
Theorem counter_agrees_after_successful_toggles
    (reqs : list Request) (s : Store) (item : string) :
  Forall (fun r => r = inr (SendStatus 200)) (fst (serveToggles reqs s)) ->
  Exists (fun req => tid (params req) = item) reqs \/ counterAgrees s item ->
  cachedDislikes (snd (serveToggles reqs s)) item =
  Some (DislikeDao.countHowManyDislikedTuit item (snd (serveToggles reqs s))).
Proof.
  intros Hok [Hex | Hagree];
    [|exact (serveToggles_preserves_counterAgrees reqs s item Hagree)].
  revert s Hok.
  induction Hex as [req reqs Hhere | req reqs Hlater IH]; intros s Hok;
    rewrite serveToggles_cons in Hok |- *; simpl in Hok |- *;
    apply Forall_cons in Hok; destruct Hok as [Hhd Htl].
  - apply serveToggles_preserves_counterAgrees. subst item.
    apply toggle_success_inv in Hhd. destruct Hhd as [Hg Hx].
    now apply toggle_establishes_counterAgrees.
  - apply IH, Htl.
Qed.

Lemma counter_agrees_after_successful_toggles_witness :
  let reqs := [toggleBy alice tuit1; toggleBy bob tuit1; toggleBy alice tuit1] in
  let s := sampleStore [] 7 in
  cachedDislikes (snd (serveToggles reqs s)) tuit1 =
  Some (DislikeDao.countHowManyDislikedTuit tuit1 (snd (serveToggles reqs s))).
Proof.
  apply (counter_agrees_after_successful_toggles
           [toggleBy alice tuit1; toggleBy bob tuit1; toggleBy alice tuit1]
           (sampleStore [] 7) tuit1).
  - vm_compute. repeat constructor.
  - left. apply Exists_cons_hd. reflexivity.
Defined.

(** ** The scenarios of the specification *)

(** No edge and counter 0: the toggle creates the edge and writes 1, the
    status check then finds the edge, the second toggle removes it and
    writes 0. *)
Example scenario_toggle_check_toggle :
  let s1 := final (run (aliceToggles tuit1) (sampleStore [] 0)) in
  let s2 := final (run (aliceToggles tuit1) s1) in
  s1 = sampleStore [aliceDislike] 1
  /\ result (run (DislikeController.userAlreadyDislikedTuit (toggleBy alice tuit1)) s1) =
     inr (Json (Some aliceDislike))
  /\ s2 = sampleStore [] 0.
Proof. vm_compute. repeat split. Qed.

(** Two actors toggle the same item from the empty state: counter 2, and
    both are listed, in insertion order. *)
Example scenario_two_actors :
  let s2 := snd (serveToggles [toggleBy alice tuit1; toggleBy bob tuit1]
                              (sampleStore [] 0)) in
  cachedDislikes s2 tuit1 = Some 2%Z
  /\ DislikeDao.findAllUsersThatDislikedTuit tuit1 s2 =
     [mkDislikeWithUser tuit1 (Some (mkUser "alice"));
      mkDislikeWithUser tuit1 (Some (mkUser "bob"))].
Proof. vm_compute. repeat split. Qed.

(** The "me" alias with a profile in the session is the profile's user. *)
Example scenario_me_with_profile :
  final (run (DislikeController.userTogglesTuitDislikes
                (mkRequest (mkParams "me" tuit1) (Some (mkProfile alice))))
             (sampleStore [] 0)) =
  sampleStore [aliceDislike] 1.
Proof. vm_compute. reflexivity. Qed.

(** * Further properties of the DAO *)

Lemma byPair_eq (u t : string) (d : Dislike) :
  byPair u t d = true -> d = mkDislike t u.
Proof.
  intros H. apply byPair_true in H. destruct d as [dt du], H as [H1 H2].
  simpl in *. congruence.
Qed.

Lemma deleteOne_length (p : Dislike -> bool) (l : list Dislike) :
  length (deleteOne p l) =
  match List.find p l with
  | Some _ => length l - 1
  | None => length l
  end.
Proof.
  induction l as [|d l IH]; simpl; [reflexivity|].
  destruct (p d); simpl; [lia|].
  rewrite IH. destruct (List.find p l) eqn:E; [|reflexivity].
  destruct l; [discriminate|]. simpl. lia.
Qed.

Lemma deleteOne_sublist (p : Dislike -> bool) (l : list Dislike) :
  sublist (deleteOne p l) l.
Proof.
  induction l as [|d l IH]; simpl; [constructor|].
  destruct (p d); [apply sublist_cons, reflexivity | apply sublist_skip, IH].
Qed.

(** X1: the point lookup is sound and complete: what it finds is a stored
    record of the pair, and it finds nothing exactly when the collection
    holds no record of the pair. *)
Theorem findUserDislikesTuit_spec (u t : string) (s : Store) :
  (forall d, DislikeDao.findUserDislikesTuit u t s = Some d ->
     In d (dislikeColl s) /\ d = mkDislike t u)
  /\ (DislikeDao.findUserDislikesTuit u t s = None <->
      ~ In (mkDislike t u) (dislikeColl s)).
Proof.
  unfold DislikeDao.findUserDislikesTuit. split.
  - intros d Hd. apply List.find_some in Hd. destruct Hd as [Hin Hp].
    split; [exact Hin | now apply byPair_eq].
  - split.
    + intros Hnone Hin.
      apply (List.find_none _ _ Hnone) in Hin. now rewrite byPair_self in Hin.
    + intros Hnot. destruct (List.find (byPair u t) (dislikeColl s)) as [d|] eqn:E;
        [|reflexivity].
      apply List.find_some in E. destruct E as [Hin Hp].
      apply byPair_eq in Hp. subst d. contradiction.
Qed.

(** X2: insert then look up: the insert resolves to the record of the pair,
    the point lookup finds it afterwards, the count of the item grows by
    one and the count of every other item stays. *)
Theorem userDislikesTuit_then_lookup (u t : string) (s : Store) :
  let s' := snd (DislikeDao.userDislikesTuit u t s) in
  fst (DislikeDao.userDislikesTuit u t s) = mkDislike t u
  /\ DislikeDao.findUserDislikesTuit u t s' = Some (mkDislike t u)
  /\ DislikeDao.countHowManyDislikedTuit t s' =
     (DislikeDao.countHowManyDislikedTuit t s + 1)%Z
  /\ (forall t', t' <> t ->
        DislikeDao.countHowManyDislikedTuit t' s' =
        DislikeDao.countHowManyDislikedTuit t' s)
  /\ tuitColl s' = tuitColl s /\ userColl s' = userColl s.
Proof.
  simpl. split; [reflexivity|]. split; [|split; [|split; [|split; reflexivity]]].
  - unfold DislikeDao.findUserDislikesTuit. simpl.
    destruct (List.find (byPair u t) (dislikeColl s ++ [mkDislike t u])) as [d|] eqn:E.
    + apply List.find_some in E. destruct E as [_ Hp].
      apply byPair_eq in Hp. now subst d.
    + exfalso. assert (Hp := List.find_none _ _ E (mkDislike t u)).
      rewrite byPair_self in Hp. enough (true = false) by discriminate.
      apply Hp, List.in_or_app. right. now left.
  - unfold DislikeDao.countHowManyDislikedTuit. simpl.
    rewrite filter_snoc, length_app. unfold byTuit at 2. simpl.
    rewrite String.eqb_refl. simpl. lia.
  - intros t' Hne. unfold DislikeDao.countHowManyDislikedTuit. simpl.
    rewrite filter_snoc. unfold byTuit at 2. simpl.
    apply not_eq_sym, String.eqb_neq in Hne. rewrite Hne.
    now rewrite app_nil_r.
Qed.

(** X3: deleting the dislike of a pair that has none is a silent no-op: the
    promise resolves and the store is the one before. *)
Theorem userUnDislikesTuit_absent (u t : string) (s : Store) :
  DislikeDao.findUserDislikesTuit u t s = None ->
  exec (UserUnDislikesTuit u t) s = (inr tt, s).
Proof.
  intros Hnone. simpl. unfold DislikeDao.userUnDislikesTuit.
  rewrite filter_deleteOne_absent by exact Hnone. now destruct s.
Qed.

Lemma userUnDislikesTuit_absent_witness :
  exec (UserUnDislikesTuit bob tuit1) (sampleStore [aliceDislike] 1) =
  (inr tt, sampleStore [aliceDislike] 1).
Proof.
  apply (userUnDislikesTuit_absent bob tuit1 (sampleStore [aliceDislike] 1)).
  reflexivity.
Defined.

(** X4: the delete removes one record at most, a record of the pair, and keeps
    the others in their order: the collection shrinks by one when the pair
    had a record and not at all otherwise, no other pair loses a record,
    and tuits and users are untouched. *)
Theorem userUnDislikesTuit_frame (u t : string) (s : Store) :
  let s' := DislikeDao.userUnDislikesTuit u t s in
  sublist (dislikeColl s') (dislikeColl s)
  /\ length (dislikeColl s') =
     length (dislikeColl s) -
     match DislikeDao.findUserDislikesTuit u t s with Some _ => 1 | None => 0 end
  /\ pairCount s' u t = pairCount s u t - 1
  /\ (forall u' t', (u, t) <> (u', t') -> pairCount s' u' t' = pairCount s u' t')
  /\ tuitColl s' = tuitColl s /\ userColl s' = userColl s.
Proof.
  simpl. split; [apply deleteOne_sublist|]. split; [|split; [|split; [|split; reflexivity]]].
  - rewrite deleteOne_length. unfold DislikeDao.findUserDislikesTuit.
    destruct (List.find _ _); lia.
  - unfold pairCount. simpl.
    destruct (List.find (byPair u t) (dislikeColl s)) eqn:E.
    + assert (H : List.find (byPair u t) (dislikeColl s) <> None) by congruence.
      apply (filter_deleteOne_covered _ (byPair u t)) in H; [lia | auto].
    + rewrite filter_deleteOne_absent by exact E.
      apply find_none_filter in E. rewrite E. reflexivity.
  - intros u' t' Hne. unfold pairCount. simpl.
    rewrite filter_deleteOne_disjoint; [reflexivity|].
    intros d. now apply byPair_other_pair.
Qed.

(** X5: insert then delete: when the pair had no record, the store is back as
    it was. *)
Theorem userDislikesTuit_then_userUnDislikesTuit (u t : string) (s : Store) :
  DislikeDao.findUserDislikesTuit u t s = None ->
  DislikeDao.userUnDislikesTuit u t (snd (DislikeDao.userDislikesTuit u t s)) = s.
Proof.
  intros Hnone. unfold DislikeDao.userUnDislikesTuit. simpl.
  assert (H : deleteOne (byPair u t) (dislikeColl s ++ [mkDislike t u]) = dislikeColl s).
  { unfold DislikeDao.findUserDislikesTuit in Hnone.
    induction (dislikeColl s) as [|d l IH]; simpl in *.
    - now rewrite byPair_self.
    - destruct (byPair u t d); [discriminate|]. now rewrite IH. }
  rewrite H. now destruct s.
Qed.

Lemma userDislikesTuit_then_userUnDislikesTuit_witness :
  DislikeDao.userUnDislikesTuit bob tuit1
    (snd (DislikeDao.userDislikesTuit bob tuit1 (sampleStore [aliceDislike] 1))) =
  sampleStore [aliceDislike] 1.
Proof.
  apply (userDislikesTuit_then_userUnDislikesTuit bob tuit1
           (sampleStore [aliceDislike] 1)).
  reflexivity.
Defined.

(** X6: the listing of the dislikers of an item has one row per counted
    record, each on the item, in store order; a record whose user does not
    resolve keeps its row, with a null user. *)
Theorem findAllUsersThatDislikedTuit_rows (t : string) (s : Store) :
  Z.of_nat (length (DislikeDao.findAllUsersThatDislikedTuit t s)) =
    DislikeDao.countHowManyDislikedTuit t s
  /\ Forall (fun row => du_tuit row = t) (DislikeDao.findAllUsersThatDislikedTuit t s)
  /\ List.map du_dislikedBy (DislikeDao.findAllUsersThatDislikedTuit t s) =
     List.map (fun d => userColl s !! dislikedBy d)
              (List.filter (byTuit t) (dislikeColl s)).
Proof.
  unfold DislikeDao.findAllUsersThatDislikedTuit, DislikeDao.countHowManyDislikedTuit.
  split; [now rewrite length_map|]. split.
  - apply Forall_forall. intros row Hrow.
    apply list_elem_of_In, List.in_map_iff in Hrow. destruct Hrow as (d & <- & Hd).
    apply List.filter_In in Hd. destruct Hd as [_ Hd].
    now apply String.eqb_eq in Hd.
  - rewrite List.map_map. reflexivity.
Qed.

(** * Further properties of the controller *)

(** ** Who the handlers act for *)

Lemma userIdOf_not_me (u : string) (profile : option Profile) :
  u <> "me" ->
  DislikeController.meWithoutProfile u profile = false
  /\ DislikeController.userIdOf u profile = u.
Proof.
  intros Hne. apply String.eqb_neq in Hne.
  unfold DislikeController.meWithoutProfile, DislikeController.userIdOf.
  now rewrite Hne.
Qed.

Lemma userIdOf_profile (p : Profile) :
  DislikeController.meWithoutProfile (_id p) (Some p) = false
  /\ DislikeController.userIdOf (_id p) (Some p) = _id p.
Proof.
  unfold DislikeController.meWithoutProfile, DislikeController.userIdOf.
  destruct (String.eqb (_id p) "me"); split; reflexivity.
Qed.

(** X7: with a profile in the session, the "me" alias is the profile's user:
    the three guarded handlers run as they do on the path that names the
    user's own id. *)
Theorem me_is_the_profile_user (p : Profile) (t : string) (s : Store) :
  run (DislikeController.userTogglesTuitDislikes
         (mkRequest (mkParams "me" t) (Some p))) s =
    run (DislikeController.userTogglesTuitDislikes
           (mkRequest (mkParams (_id p) t) (Some p))) s
  /\ run (DislikeController.userAlreadyDislikedTuit
            (mkRequest (mkParams "me" t) (Some p))) s =
     run (DislikeController.userAlreadyDislikedTuit
            (mkRequest (mkParams (_id p) t) (Some p))) s
  /\ run (DislikeController.findAllTuitsDislikedByUser
            (mkRequest (mkParams "me" t) (Some p))) s =
     run (DislikeController.findAllTuitsDislikedByUser
            (mkRequest (mkParams (_id p) t) (Some p))) s.
Proof.
  destruct (userIdOf_profile p) as [Hg Hu].
  unfold DislikeController.userTogglesTuitDislikes,
    DislikeController.userAlreadyDislikedTuit,
    DislikeController.findAllTuitsDislikedByUser.
  cbn [params uid tid session_profile]. rewrite Hg, Hu.
  repeat split.
Qed.

(** X8: a path that names a user id is served for that user whatever the
    session holds: the session is read for the "me" alias only. *)
Theorem named_user_is_served_whatever_the_session
    (u t : string) (profile1 profile2 : option Profile) (s : Store) :
  u <> "me" ->
  run (DislikeController.userTogglesTuitDislikes
         (mkRequest (mkParams u t) profile1)) s =
    run (DislikeController.userTogglesTuitDislikes
           (mkRequest (mkParams u t) profile2)) s
  /\ run (DislikeController.userAlreadyDislikedTuit
            (mkRequest (mkParams u t) profile1)) s =
     run (DislikeController.userAlreadyDislikedTuit
            (mkRequest (mkParams u t) profile2)) s
  /\ run (DislikeController.findAllTuitsDislikedByUser
            (mkRequest (mkParams u t) profile1)) s =
     run (DislikeController.findAllTuitsDislikedByUser
            (mkRequest (mkParams u t) profile2)) s.
Proof.
  intros Hne.
  destruct (userIdOf_not_me u profile1 Hne) as [Hg1 Hu1].
  destruct (userIdOf_not_me u profile2 Hne) as [Hg2 Hu2].
  unfold DislikeController.userTogglesTuitDislikes,
    DislikeController.userAlreadyDislikedTuit,
    DislikeController.findAllTuitsDislikedByUser.
  cbn [params uid tid session_profile]. rewrite Hg1, Hu1, Hg2, Hu2.
  repeat split.
Qed.

Lemma named_user_is_served_whatever_the_session_witness :
  run (DislikeController.userTogglesTuitDislikes
         (mkRequest (mkParams alice tuit1) None)) (sampleStore [] 0) =
    run (DislikeController.userTogglesTuitDislikes
           (mkRequest (mkParams alice tuit1) (Some (mkProfile bob)))) (sampleStore [] 0)
  /\ run (DislikeController.userAlreadyDislikedTuit
            (mkRequest (mkParams alice tuit1) None)) (sampleStore [] 0) =
     run (DislikeController.userAlreadyDislikedTuit
            (mkRequest (mkParams alice tuit1) (Some (mkProfile bob)))) (sampleStore [] 0)
  /\ run (DislikeController.findAllTuitsDislikedByUser
            (mkRequest (mkParams alice tuit1) None)) (sampleStore [] 0) =
     run (DislikeController.findAllTuitsDislikedByUser
            (mkRequest (mkParams alice tuit1) (Some (mkProfile bob)))) (sampleStore [] 0).
Proof.
  apply (named_user_is_served_whatever_the_session
           alice tuit1 None (Some (mkProfile bob)) (sampleStore [] 0)).
  discriminate.
Defined.

(** ** The answer and the writes of a toggle *)

Lemma toggle_result_any (req : Request) (s : Store) :
  result (run (DislikeController.userTogglesTuitDislikes req) s) =
  inr (SendStatus
         (if DislikeController.meWithoutProfile (uid (params req)) (session_profile req)
          then 403
          else if bool_decide (is_Some (tuitColl s !! tid (params req)))
               then 200 else 404)).
Proof.
  destruct (DislikeController.meWithoutProfile (uid (params req))
              (session_profile req)) eqn:Hg.
  - now rewrite toggle_unauthenticated.
  - now rewrite toggle_result.
Qed.

(** X10: a toggle writes a counter once at most, on its own item, and exactly
    when it answers 200; the value written is then the cached counter of
    the item. *)
Theorem toggle_counter_write (req : Request) (s : Store) :
  let o := run (DislikeController.userTogglesTuitDislikes req) s in
  (result o = inr (SendStatus 200) /\
   exists v, counterWrites (log o) = [(tid (params req), v)] /\
             cachedDislikes (final o) (tid (params req)) = Some v)
  \/ (result o <> inr (SendStatus 200) /\ counterWrites (log o) = [] /\
      tuitColl (final o) = tuitColl s).
Proof.
  simpl.
  destruct (DislikeController.meWithoutProfile (uid (params req))
              (session_profile req)) eqn:Hg.
  - right. rewrite toggle_unauthenticated by exact Hg. simpl.
    repeat split. discriminate.
  - rewrite toggle_result, toggle_counterWrites, toggle_tuits by exact Hg.
    destruct (tuitColl s !! tid (params req)) as [x|] eqn:Hx.
    + left. split; [reflexivity|]. eexists. split; [reflexivity|].
      now rewrite (toggle_cached req s Hg x Hx).
    + right. repeat split. discriminate.
Qed.

(** X11: a toggle changes nothing of a tuit but the dislikes counter of its own
    item: every tuit that resolved still does, with its poster and its
    other statistics, a tuit other than the item is the same document, and
    no user changes. *)
Theorem toggle_touches_the_counter_only
    (req : Request) (s : Store) (t' : string) (x : Tuit) :
  tuitColl s !! t' = Some x ->
  let o := run (DislikeController.userTogglesTuitDislikes req) s in
  (exists x', tuitColl (final o) !! t' = Some x'
              /\ postedBy x' = postedBy x
              /\ otherStats (stats x') = otherStats (stats x)
              /\ (t' <> tid (params req) -> x' = x))
  /\ userColl (final o) = userColl s.
Proof.
  intros Hx. simpl.
  destruct (DislikeController.meWithoutProfile (uid (params req))
              (session_profile req)) eqn:Hg.
  - rewrite toggle_unauthenticated by exact Hg. simpl. eauto 6.
  - split.
    + rewrite toggle_tuits by exact Hg.
      destruct (tuitColl s !! tid (params req)) as [y|] eqn:Hy; [|eauto 6].
      destruct (decide (tid (params req) = t')) as [<-|Hne].
      * rewrite lookup_insert_eq. eexists. split; [reflexivity|].
        assert (y = x) by congruence. subst y. simpl. repeat split. congruence.
      * rewrite lookup_insert_ne by exact Hne. eauto 6.
    + destruct (DislikeDao.findUserDislikesTuit
                  (DislikeController.userIdOf (uid (params req)) (session_profile req))
                  (tid (params req)) s) as [d|] eqn:Hf;
        destruct (tuitColl s !! tid (params req)) as [y|] eqn:Hy.
      * now erewrite toggle_undislike by eauto.
      * now erewrite toggle_undislike_missing by eauto.
      * now erewrite toggle_dislike by eauto.
      * now erewrite toggle_dislike_missing by eauto.
Qed.

Lemma toggle_touches_the_counter_only_witness :
  let o := run (aliceToggles tuit1) (sampleStore [] 5) in
  (exists x', tuitColl (final o) !! tuit1 = Some x'
              /\ postedBy x' = postedBy (sampleTuit 5)
              /\ otherStats (stats x') = otherStats (stats (sampleTuit 5))
              /\ (tuit1 <> tid (params (toggleBy alice tuit1)) -> x' = sampleTuit 5))
  /\ userColl (final o) = userColl (sampleStore [] 5).
Proof.
  apply (toggle_touches_the_counter_only
           (toggleBy alice tuit1) (sampleStore [] 5) tuit1 (sampleTuit 5)).
  reflexivity.
Defined.

(** ** Toggles on different pairs *)

Lemma toggle_final (req : Request) (s : Store) :
  DislikeController.meWithoutProfile (uid (params req)) (session_profile req) = false ->
  final (run (DislikeController.userTogglesTuitDislikes req) s) =
  toggledStore (DislikeController.userIdOf (uid (params req)) (session_profile req))
               (tid (params req)) s.
Proof.
  intros Hg. unfold toggledStore, toggledEdges, toggledCount.
  unfold DislikeDao.findUserDislikesTuit at 1.
  destruct (List.find _ (dislikeColl s)) as [d|] eqn:Hf;
    destruct (tuitColl s !! tid (params req)) as [x|] eqn:Hx.
  - now erewrite toggle_undislike by eauto.
  - now erewrite toggle_undislike_missing by eauto.
  - now erewrite toggle_dislike by eauto.
  - now erewrite toggle_dislike_missing by eauto.
Qed.

Section DisjointFilters.

Variables p q : Dislike -> bool.
Hypothesis Hpq : forall d, p d = true -> q d = false.

Lemma find_head_filter (l : list Dislike) :
  List.find q l = head (List.filter q l).
Proof.
  induction l as [|d l IH]; simpl; [reflexivity|].
  destruct (q d); [reflexivity | exact IH].
Qed.

Lemma deleteOne_comm (l : list Dislike) :
  deleteOne q (deleteOne p l) = deleteOne p (deleteOne q l).
Proof.
  induction l as [|d l IH]; simpl; [reflexivity|].
  destruct (p d) eqn:Hp, (q d) eqn:Hq; simpl; rewrite ?Hp, ?Hq; try reflexivity.
  - now rewrite (Hpq d Hp) in Hq.
  - now rewrite IH.
Qed.

Lemma deleteOne_snoc (l : list Dislike) (d : Dislike) :
  q d = false -> deleteOne q (l ++ [d]) = (deleteOne q l ++ [d])%list.
Proof.
  intros Hd. induction l as [|e l IH]; simpl.
  - now rewrite Hd.
  - destruct (q e); [reflexivity | now rewrite IH].
Qed.

End DisjointFilters.

Lemma find_toggledEdges_other (u t u' t' : string) (l : list Dislike) :
  (u, t) <> (u', t') ->
  List.find (byPair u' t') (toggledEdges u t l) = List.find (byPair u' t') l.
Proof.
  intros Hne. rewrite !find_head_filter.
  rewrite toggledEdges_disjoint; [reflexivity|].
  intros d. now apply byPair_other_pair.
Qed.

Lemma toggledEdges_comm (u1 t1 u2 t2 : string) (l : list Dislike) :
  (u1, t1) <> (u2, t2) ->
  Permutation (toggledEdges u2 t2 (toggledEdges u1 t1 l))
              (toggledEdges u1 t1 (toggledEdges u2 t2 l)).
Proof.
  intros Hne.
  assert (Hne' : (u2, t2) <> (u1, t1)) by congruence.
  assert (H12 : forall d, byPair u1 t1 d = true -> byPair u2 t2 d = false)
    by (intros d; now apply byPair_other_pair).
  assert (H21 : forall d, byPair u2 t2 d = true -> byPair u1 t1 d = false)
    by (intros d; now apply byPair_other_pair).
  unfold toggledEdges at 1 3.
  rewrite (find_toggledEdges_other u1 t1 u2 t2 l Hne).
  rewrite (find_toggledEdges_other u2 t2 u1 t1 l Hne').
  unfold toggledEdges.
  destruct (List.find (byPair u1 t1) l) eqn:E1, (List.find (byPair u2 t2) l) eqn:E2.
  - now rewrite (deleteOne_comm _ _ H12).
  - rewrite (deleteOne_snoc (byPair u1 t1)); [reflexivity|].
    apply H21, byPair_self.
  - rewrite (deleteOne_snoc (byPair u2 t2)); [reflexivity|].
    apply H12, byPair_self.
  - rewrite <- !app_assoc. apply Permutation_app_head, perm_swap.
Qed.

Lemma toggledCount_other (u t u' t' : string) (s : Store) :
  (u, t) <> (u', t') ->
  toggledCount u' t' (toggledStore u t s) =
  if decide (t = t')
  then (toggledCount u t s + (toggledCount u' t' s
                              - DislikeDao.countHowManyDislikedTuit t' s))%Z
  else toggledCount u' t' s.
Proof.
  intros Hne. unfold toggledCount at 1.
  unfold DislikeDao.findUserDislikesTuit, DislikeDao.countHowManyDislikedTuit.
  cbn [toggledStore dislikeColl].
  rewrite find_toggledEdges_other by exact Hne.
  destruct (decide (t = t')) as [<-|Ht].
  - rewrite toggledEdges_tuit. unfold toggledCount,
      DislikeDao.findUserDislikesTuit, DislikeDao.countHowManyDislikedTuit.
    destruct (List.find (byPair u t) (dislikeColl s)),
      (List.find (byPair u' t) (dislikeColl s)); lia.
  - rewrite toggledEdges_disjoint by (intros d; now apply byPair_other_tuit).
    reflexivity.
Qed.

Lemma toggledStore_comm (u1 t1 u2 t2 : string) (s : Store) :
  (u1, t1) <> (u2, t2) ->
  let sA := toggledStore u2 t2 (toggledStore u1 t1 s) in
  let sB := toggledStore u1 t1 (toggledStore u2 t2 s) in
  Permutation (dislikeColl sA) (dislikeColl sB)
  /\ tuitColl sA = tuitColl sB
  /\ userColl sA = userColl sB.
Proof.
  intros Hne sA sB.
  assert (Hne' : (u2, t2) <> (u1, t1)) by congruence.
  split; [apply toggledEdges_comm, Hne|]. split; [|reflexivity].
  subst sA sB. unfold toggledStore at 1 3. cbn [tuitColl].
  rewrite (toggledCount_other u1 t1 u2 t2 s Hne).
  rewrite (toggledCount_other u2 t2 u1 t1 s Hne').
  unfold toggledStore. cbn [tuitColl].
  destruct (decide (t1 = t2)) as [<-|Ht].
  - rewrite decide_True by reflexivity.
    destruct (tuitColl s !! t1) as [x|] eqn:Hx; [|now rewrite Hx].
    rewrite !lookup_insert_eq, !insert_insert_eq. cbn [postedBy stats otherStats].
    do 3 f_equal. lia.
  - rewrite (decide_False (P := t2 = t1)) by congruence.
    destruct (tuitColl s !! t1) as [x1|] eqn:H1,
      (tuitColl s !! t2) as [x2|] eqn:H2;
      rewrite ?lookup_insert_ne, ?H1, ?H2 by congruence; try reflexivity.
    now apply insert_insert_ne.
Qed.

Lemma toggle_keeps_resolution (req : Request) (s : Store) (t' : string) :
  is_Some (tuitColl (final (run (DislikeController.userTogglesTuitDislikes req) s)) !! t')
  <-> is_Some (tuitColl s !! t').
Proof.
  destruct (DislikeController.meWithoutProfile (uid (params req))
              (session_profile req)) eqn:Hg.
  - now rewrite toggle_unauthenticated.
  - rewrite toggle_tuits by exact Hg.
    destruct (tuitColl s !! tid (params req)) as [x|] eqn:Hx; [|reflexivity].
    destruct (decide (tid (params req) = t')) as [<-|Hne].
    + rewrite lookup_insert_eq, Hx. split; eauto.
    + now rewrite lookup_insert_ne.
Qed.

(** X15: two toggles on different pairs can be served in either order: the two
    orders give the same answers to the same requests, the same tuits with
    the same counters, the same users, and the same dislike records up to
    their order in the collection. *)
Theorem toggles_on_different_pairs_commute (req1 req2 : Request) (s : Store) :
  (DislikeController.userIdOf (uid (params req1)) (session_profile req1),
   tid (params req1)) <>
  (DislikeController.userIdOf (uid (params req2)) (session_profile req2),
   tid (params req2)) ->
  let sA := snd (serveToggles [req1; req2] s) in
  let sB := snd (serveToggles [req2; req1] s) in
  fst (serveToggles [req1; req2] s) = rev (fst (serveToggles [req2; req1] s))
  /\ Permutation (dislikeColl sA) (dislikeColl sB)
  /\ tuitColl sA = tuitColl sB
  /\ userColl sA = userColl sB.
Proof.
  intros Hne. rewrite !serveToggles_cons. cbn [serveToggles fst snd rev app].
  split.
  - rewrite !toggle_result_any.
    assert (H1 := toggle_keeps_resolution req1 s (tid (params req2))).
    assert (H2 := toggle_keeps_resolution req2 s (tid (params req1))).
    rewrite (bool_decide_ext _ _ H1), (bool_decide_ext _ _ H2). reflexivity.
  - destruct (DislikeController.meWithoutProfile (uid (params req1))
                (session_profile req1)) eqn:Hg1;
      destruct (DislikeController.meWithoutProfile (uid (params req2))
                  (session_profile req2)) eqn:Hg2;
      rewrite ?(fun s => toggle_unauthenticated req1 s Hg1),
              ?(fun s => toggle_unauthenticated req2 s Hg2); cbn [final];
      rewrite ?(fun s => toggle_unauthenticated req1 s Hg1),
              ?(fun s => toggle_unauthenticated req2 s Hg2); cbn [final];
      try (repeat split; reflexivity).
    rewrite !toggle_final by assumption.
    now apply toggledStore_comm.
Qed.

Lemma toggles_on_different_pairs_commute_witness :
  let s := sampleStore [aliceDislike] 1 in
  let sA := snd (serveToggles [toggleBy alice tuit1; toggleBy bob tuit1] s) in
  let sB := snd (serveToggles [toggleBy bob tuit1; toggleBy alice tuit1] s) in
  fst (serveToggles [toggleBy alice tuit1; toggleBy bob tuit1] s) =
    rev (fst (serveToggles [toggleBy bob tuit1; toggleBy alice tuit1] s))
  /\ Permutation (dislikeColl sA) (dislikeColl sB)
  /\ tuitColl sA = tuitColl sB
  /\ userColl sA = userColl sB.
Proof.
  apply (toggles_on_different_pairs_commute
           (toggleBy alice tuit1) (toggleBy bob tuit1) (sampleStore [aliceDislike] 1)).
  discriminate.
Defined.

(** ** Requests in flight together *)

Lemma bind_answersOrThrows {R Q : Type} (P : Q -> Prop) (p : Prog R) (f : R -> Prog Q) :
  (forall r, AnswersOrThrows P (f r)) -> AnswersOrThrows P (bind p f).
Proof.
  intros Hf. induction p as [r|e|A c k IH]; simpl.
  - apply Hf.
  - constructor.
  - constructor. intros a. apply IH.
Qed.

Lemma tryCatch_answers {R : Type} (P : R -> Prop) (body : Prog R) (h : Exn -> Prog R) :
  AnswersOrThrows P body -> (forall e, Answers P (h e)) -> Answers P (tryCatch body h).
Proof.
  intros Hb Hh. induction Hb as [r Hr|e|A c k _ IH]; simpl.
  - now constructor.
  - apply Hh.
  - constructor. exact IH.
Qed.

Lemma toggle_answers (req : Request) :
  Answers toggleStatus (DislikeController.userTogglesTuitDislikes req).
Proof.
  unfold DislikeController.userTogglesTuitDislikes.
  destruct (DislikeController.meWithoutProfile _ _).
  - constructor. right. now left.
  - apply tryCatch_answers.
    + repeat (apply bind_answersOrThrows; intros ?).
      constructor. now left.
    + intros e. constructor. right. now right.
Qed.

Lemma run_answers {R : Type} (P : R -> Prop) (p : Prog R) (s : Store) :
  Answers P p -> exists r, result (run p s) = inr r /\ P r.
Proof.
  intros Hp. revert s. induction Hp as [r Hr|A c k _ IH]; intros s; simpl.
  - eauto.
  - destruct (exec c s) as [a s']. simpl. apply IH.
Qed.

Lemma step_answers {R : Type} (P : R -> Prop) (p : Prog R) (s : Store) :
  Answers P p -> Answers P (fst (fst (step p s))).
Proof.
  intros Hp. destruct Hp as [r Hr|A c k Hk]; simpl.
  - now constructor.
  - destruct (exec c s) as [a s']. simpl. apply Hk.
Qed.

Lemma interleave_answers {R : Type} (P : R -> Prop)
    (sched : list bool) (p1 p2 : Prog R) (s : Store) :
  Answers P p1 -> Answers P p2 ->
  (exists r, result (fst (interleave sched p1 p2 s)) = inr r /\ P r)
  /\ (exists r, result (snd (interleave sched p1 p2 s)) = inr r /\ P r).
Proof.
  revert p1 p2 s. induction sched as [|b sched IH]; intros p1 p2 s H1 H2.
  - simpl. split; now apply run_answers.
  - destruct b; simpl.
    + assert (H1' := step_answers P p1 s H1).
      destruct (step p1 s) as [[p1' s'] l]. simpl in H1'.
      specialize (IH p1' p2 s' H1' H2).
      destruct (interleave sched p1' p2 s') as [o1 o2]. exact IH.
    + assert (H2' := step_answers P p2 s H2).
      destruct (step p2 s) as [[p2' s'] l]. simpl in H2'.
      specialize (IH p1 p2' s' H1 H2').
      destruct (interleave sched p1 p2' s') as [o1 o2]. exact IH.
Qed.

(** X16: two toggles in flight together, under any schedule of their awaits and
    from any store: each one answers, with 200, 403 or 404; no failure of a
    store call and no null tuit leaves a toggle rejected. *)
Theorem interleaved_toggles_answer
    (sched : list bool) (req1 req2 : Request) (s : Store) :
  (exists r, result (fst (interleave sched
                 (DislikeController.userTogglesTuitDislikes req1)
                 (DislikeController.userTogglesTuitDislikes req2) s)) = inr r
             /\ toggleStatus r)
  /\ (exists r, result (snd (interleave sched
                   (DislikeController.userTogglesTuitDislikes req1)
                   (DislikeController.userTogglesTuitDislikes req2) s)) = inr r
                /\ toggleStatus r).
Proof. apply interleave_answers; apply toggle_answers. Qed.

Lemma exec_frame {A : Type} (c : Call A) (s : Store) :
  userColl (snd (exec c s)) = userColl s
  /\ dom (tuitColl (snd (exec c s))) = dom (tuitColl s).
Proof.
  destruct c as [t|u|u t|u t|u t|t|t|t newStats]; simpl; try (split; reflexivity).
  unfold TuitDao.updateDislikes.
  destruct (tuitColl s !! t) as [x|] eqn:Hx; simpl; [|split; reflexivity].
  split; [reflexivity|]. apply dom_insert_lookup_L. eauto.
Qed.

Lemma run_frame {R : Type} (p : Prog R) (s : Store) :
  userColl (final (run p s)) = userColl s
  /\ dom (tuitColl (final (run p s))) = dom (tuitColl s).
Proof.
  revert s. induction p as [r|e|A c k IH]; intros s; simpl; try (split; reflexivity).
  destruct (exec_frame c s) as [Hu Hd]. destruct (exec c s) as [a s']. simpl in *.
  destruct (IH a s') as [Hu' Hd']. split; congruence.
Qed.

Lemma step_frame {R : Type} (p : Prog R) (s : Store) :
  userColl (snd (fst (step p s))) = userColl s
  /\ dom (tuitColl (snd (fst (step p s)))) = dom (tuitColl s).
Proof.
  destruct p as [r|e|A c k]; simpl; try (split; reflexivity).
  destruct (exec_frame c s) as [Hu Hd]. destruct (exec c s) as [a s']. simpl in *.
  split; assumption.
Qed.

(** X17: whatever two handlers are in flight and however their awaits are
    scheduled, the store each one ends in has the users of the start,
    unchanged, and tuits under the same ids: no store call of this
    controller creates or deletes a tuit or touches a user. *)
Theorem interleaving_keeps_users_and_tuit_ids
    {R : Type} (sched : list bool) (p1 p2 : Prog R) (s : Store) :
  (userColl (final (fst (interleave sched p1 p2 s))) = userColl s
   /\ dom (tuitColl (final (fst (interleave sched p1 p2 s)))) = dom (tuitColl s))
  /\ (userColl (final (snd (interleave sched p1 p2 s))) = userColl s
      /\ dom (tuitColl (final (snd (interleave sched p1 p2 s)))) = dom (tuitColl s)).
Proof.
  revert p1 p2 s. induction sched as [|b sched IH]; intros p1 p2 s.
  - simpl. destruct (run_frame p1 s) as [Hu1 Hd1].
    destruct (run_frame p2 (final (run p1 s))) as [Hu2 Hd2].
    repeat split; congruence.
  - destruct b; simpl.
    + destruct (step_frame p1 s) as [Hu Hd].
      destruct (step p1 s) as [[p1' s'] l]. simpl in Hu, Hd.
      specialize (IH p1' p2 s').
      destruct (interleave sched p1' p2 s') as [o1 o2]. simpl in *.
      destruct IH as [[? ?] [? ?]]. repeat split; congruence.
    + destruct (step_frame p2 s) as [Hu Hd].
      destruct (step p2 s) as [[p2' s'] l]. simpl in Hu, Hd.
      specialize (IH p1 p2' s').
      destruct (interleave sched p1 p2' s') as [o1 o2]. simpl in *.
      destruct IH as [[? ?] [? ?]]. repeat split; congruence.
Qed.

(** ** Route registration *)

(** X18: [getInstance] declares the four routes once, on the app of the first
    call: called on a list of apps from the null static, it leaves the
    first app with the four routes appended and declares nothing on any
    later app. *)
Theorem getInstance_registers_once (app : list Route) (apps : list (list Route)) :
  getInstances (app :: apps) None =
  ((app ++ [mkRoute GET "/api/users/:uid/dislikes" HFindAllTuitsDislikedByUser;
            mkRoute GET "/api/tuits/:tid/dislikes" HFindAllUsersThatDislikedTuit;
            mkRoute PUT "/api/users/:uid/dislikes/:tid" HUserTogglesTuitDislikes;
            mkRoute GET "/api/users/:uid/dislikes/:tid" HUserAlreadyDislikedTuit])%list
     :: apps,
   Some NewDislikeController).
Proof.
  assert (H : forall (l : list (list Route)) (c : Controller),
             getInstances l (Some c) = (l, Some c)).
  { induction l as [|a l IH]; intros c; simpl; [reflexivity|]. now rewrite IH. }
  simpl. now rewrite H.
Qed.

(** ** The guard of the queries *)

Lemma meWithoutProfile_true (u : string) (profile : option Profile) :
  DislikeController.meWithoutProfile u profile = true <-> u = "me" /\ profile = None.
Proof.
  unfold DislikeController.meWithoutProfile.
  rewrite andb_true_iff, String.eqb_eq, negb_true_iff, bool_decide_eq_false.
  rewrite <- eq_None_not_Some. reflexivity.
Qed.

(** * The handlers on every string *)

Section ToggleCast.

Variable cast : string -> bool.
Variable req : Request.
Variable s : Store.

Let u := DislikeController.userIdOf (uid (params req)) (session_profile req).
Let t := tid (params req).


Hypothesis Hauth :
  DislikeController.meWithoutProfile (uid (params req)) (session_profile req) = false.

(** The first lookup is rejected: the catch answers 404 after that call. *)
Lemma toggleCast_rejected_id :
  cast t && cast u = false ->
  runCast cast (DislikeController.userTogglesTuitDislikes req) s =
  mkOutcome (inr (SendStatus 404)) s
    [Ev (FindUserDislikesTuit u t) (inl CastError)].
Proof.
  intros Hc. unfold DislikeController.userTogglesTuitDislikes.
  rewrite Hauth. fold u t. simpl. rewrite Hc. reflexivity.
Qed.

(** The read of the tuit is rejected: the catch answers 404 after the
    three reads. *)
Lemma toggleCast_missing :
  cast t = true -> cast u = true ->
  tuitColl s !! t = None ->
  runCast cast (DislikeController.userTogglesTuitDislikes req) s =
  mkOutcome (inr (SendStatus 404)) s
    [Ev (FindUserDislikesTuit u t) (inr (DislikeDao.findUserDislikesTuit u t s));
     Ev (CountHowManyDislikedTuit t)
        (inr (DislikeDao.countHowManyDislikedTuit t s));
     Ev (FindTuitById t) (inl NotFound)].
Proof.
  intros Ht Hu Hx. unfold DislikeController.userTogglesTuitDislikes.
  rewrite Hauth. fold u t. simpl. rewrite Ht, Hu. simpl. rewrite Ht. simpl.
  rewrite Ht. unfold TuitDao.findTuitById. rewrite Hx. reflexivity.
Qed.

(** Ids that cast and a tuit that resolves: the run is the run on primary
    keys. *)
Lemma toggleCast_resolved (x : Tuit) :
  cast t = true -> cast u = true ->
  tuitColl s !! t = Some x ->
  runCast cast (DislikeController.userTogglesTuitDislikes req) s =
  run (DislikeController.userTogglesTuitDislikes req) s.
Proof.
  intros Ht Hu Hx. unfold DislikeController.userTogglesTuitDislikes.
  rewrite Hauth. fold u t. simpl. rewrite Ht, Hu. simpl. rewrite Ht. simpl.
  rewrite Ht. unfold TuitDao.findTuitById. rewrite Hx. simpl.
  destruct (DislikeDao.findUserDislikesTuit u t s); simpl;
    rewrite Ht, Hu; simpl; rewrite Ht; simpl;
    unfold TuitDao.updateDislikes; simpl; rewrite Hx; reflexivity.
Qed.

End ToggleCast.


(** ** Claims settled on every string *)

(** C3: a toggle served for a user on an item that does not resolve answers
    404 and leaves the store as it found it: no edge is created or removed,
    and no write call, so no counter write, is among the calls it made.
    The read of the missing item is rejected with NotFound before the edge
    write; this holds whatever ids the driver casts. *)
Theorem toggle_on_missing_item_changes_nothing
    (cast : string -> bool) (req : Request) (s : Store) :
  DislikeController.meWithoutProfile (uid (params req)) (session_profile req) = false ->
  tuitColl s !! tid (params req) = None ->
  let o := runCast cast (DislikeController.userTogglesTuitDislikes req) s in
  result o = inr (SendStatus 404)
  /\ final o = s
  /\ dislikeColl (final o) = dislikeColl s
  /\ counterWrites (log o) = []
  /\ edgeInserts (log o) = []
  /\ Forall (fun e => isWrite e = false) (log o).
Proof.
  intros Hg Hx o.
  destruct (cast (tid (params req)) &&
            cast (DislikeController.userIdOf (uid (params req)) (session_profile req)))
    eqn:Hc; subst o.
  - apply andb_true_iff in Hc. destruct Hc as [Ht Hu].
    rewrite (toggleCast_missing cast req s Hg Ht Hu Hx). simpl.
    repeat split; repeat constructor.
  - rewrite (toggleCast_rejected_id cast req s Hg Hc). simpl.
    repeat split; repeat constructor.
Qed.

Lemma toggle_on_missing_item_changes_nothing_witness :
  let o := runCast hex24 (aliceToggles tuit9) (sampleStore [aliceDislike] 1) in
  result o = inr (SendStatus 404)
  /\ final o = sampleStore [aliceDislike] 1
  /\ dislikeColl (final o) = dislikeColl (sampleStore [aliceDislike] 1)
  /\ counterWrites (log o) = []
  /\ edgeInserts (log o) = []
  /\ Forall (fun e => isWrite e = false) (log o).
Proof.
  apply (toggle_on_missing_item_changes_nothing hex24
           (toggleBy alice tuit9) (sampleStore [aliceDislike] 1));
    reflexivity.
Defined.

(** The run of the witness, call by call: the three reads, the last one
    rejected, and nothing after it. *)
Example toggle_on_missing_item_trace :
  runCast hex24 (aliceToggles tuit9) (sampleStore [] 0) =
  mkOutcome (inr (SendStatus 404)) (sampleStore [] 0)
    [Ev (FindUserDislikesTuit alice tuit9) (inr None);
     Ev (CountHowManyDislikedTuit tuit9) (inr 0%Z);
     Ev (FindTuitById tuit9) (inl NotFound)].
Proof. vm_compute. reflexivity. Qed.

Lemma runCast_findAllTuitsDislikedByUser
    (cast : string -> bool) (req : Request) (s : Store) :
  runCast cast (DislikeController.findAllTuitsDislikedByUser req) s =
  if DislikeController.meWithoutProfile (uid (params req)) (session_profile req)
  then mkOutcome (inr (SendStatus 403)) s []
  else
    let u := DislikeController.userIdOf (uid (params req)) (session_profile req) in
    if cast u
    then mkOutcome
           (inr (Json (DislikeController.tuitsFromDislikes
                         (DislikeDao.findAllTuitsDislikedByUser u s))))
           s [Ev (FindAllTuitsDislikedByUser u)
                 (inr (DislikeDao.findAllTuitsDislikedByUser u s))]
    else mkOutcome (inl CastError) s
           [Ev (FindAllTuitsDislikedByUser u) (inl CastError)].
Proof.
  unfold DislikeController.findAllTuitsDislikedByUser.
  destruct (DislikeController.meWithoutProfile _ _); [reflexivity|].
  simpl. destruct (cast _); reflexivity.
Qed.

Lemma runCast_userAlreadyDislikedTuit
    (cast : string -> bool) (req : Request) (s : Store) :
  runCast cast (DislikeController.userAlreadyDislikedTuit req) s =
  if DislikeController.meWithoutProfile (uid (params req)) (session_profile req)
  then mkOutcome (inr (SendStatus 403)) s []
  else
    let u := DislikeController.userIdOf (uid (params req)) (session_profile req) in
    let t := tid (params req) in
    if cast t && cast u
    then mkOutcome (inr (Json (DislikeDao.findUserDislikesTuit u t s))) s
           [Ev (FindUserDislikesTuit u t)
               (inr (DislikeDao.findUserDislikesTuit u t s))]
    else mkOutcome (inl CastError) s [Ev (FindUserDislikesTuit u t) (inl CastError)].
Proof.
  unfold DislikeController.userAlreadyDislikedTuit.
  destruct (DislikeController.meWithoutProfile _ _); [reflexivity|].
  simpl. destruct (cast _ && cast _); reflexivity.
Qed.

Lemma omap_filter_length {A B : Type} (f : A -> option B) (p : A -> bool) (l : list A) :
  length (omap f (List.filter p l)) =
  length (List.filter (fun a => p a && bool_decide (is_Some (f a))) l).
Proof.
  induction l as [|a l IH]; simpl; [reflexivity|].
  destruct (p a); simpl; [|exact IH].
  destruct (f a); simpl; [f_equal|]; exact IH.
Qed.

(** C7: for an actor whose id the driver casts, the listing answers with
    exactly the tuits of the actor's dislikes whose tuit is in the tuits
    collection, one per such dislike and in store order, each with its id,
    its statistics and its poster as the users collection resolves it.
    Every dislike of the actor on a tuit of the collection is listed, every
    item listed comes from one, no item is listed for a dislike whose tuit
    does not resolve, and the store is unchanged. *)
Theorem dislikedItems_are_the_resolving_ones
    (cast : string -> bool) (req : Request) (s : Store) :
  DislikeController.meWithoutProfile (uid (params req)) (session_profile req) = false ->
  cast (DislikeController.userIdOf (uid (params req)) (session_profile req)) = true ->
  let u := DislikeController.userIdOf (uid (params req)) (session_profile req) in
  let o := runCast cast (DislikeController.findAllTuitsDislikedByUser req) s in
  exists items,
    result o = inr (Json items)
    /\ final o = s
    /\ items =
       omap (fun d =>
               match tuitColl s !! tuit d with
               | Some x =>
                   Some (mkTuitWithPoster (tuit d) (userColl s !! postedBy x) (stats x))
               | None => None
               end)
            (List.filter (byUser u) (dislikeColl s))
    /\ (forall d x, In d (dislikeColl s) -> dislikedBy d = u ->
          tuitColl s !! tuit d = Some x ->
          In (mkTuitWithPoster (tuit d) (userColl s !! postedBy x) (stats x)) items)
    /\ (forall item, In item items ->
          exists d x, In d (dislikeColl s) /\ dislikedBy d = u
                      /\ tuitColl s !! tuit d = Some x
                      /\ item = mkTuitWithPoster (tuit d) (userColl s !! postedBy x)
                                                 (stats x))
    /\ (forall d, In d (dislikeColl s) -> tuitColl s !! tuit d = None ->
          forall item, In item items -> tp_id item <> tuit d)
    /\ length items =
       length (List.filter
                 (fun d => byUser u d && bool_decide (is_Some (tuitColl s !! tuit d)))
                 (dislikeColl s)).
Proof.
  intros Hg Hc u o.
  set (f := fun d : Dislike =>
              match tuitColl s !! tuit d with
              | Some x =>
                  Some (mkTuitWithPoster (tuit d) (userColl s !! postedBy x) (stats x))
              | None => None
              end).
  assert (Hf : forall d, DislikeDao.populateTuit s (tuit d) = f d) by reflexivity.
  assert (Hfrom : forall item, In item (omap f (List.filter (byUser u) (dislikeColl s))) ->
            exists d x, In d (dislikeColl s) /\ dislikedBy d = u
                        /\ tuitColl s !! tuit d = Some x
                        /\ item = mkTuitWithPoster (tuit d) (userColl s !! postedBy x)
                                                   (stats x)).
  { intros item Hin. apply list_elem_of_In, list_elem_of_omap in Hin.
    destruct Hin as (d & Hd & Hfd). apply list_elem_of_In, List.filter_In in Hd.
    destruct Hd as [Hd Hu]. apply String.eqb_eq in Hu. unfold f in Hfd.
    destruct (tuitColl s !! tuit d) as [x|] eqn:Hx; [|discriminate].
    injection Hfd as <-. exists d, x. auto. }
  exists (omap f (List.filter (byUser u) (dislikeColl s))).
  split; [|split; [|split; [reflexivity|split; [|split; [exact Hfrom|split]]]]].
  - subst o. rewrite runCast_findAllTuitsDislikedByUser, Hg. cbv zeta.
    rewrite Hc. simpl. rewrite tuitsDislikedBy_omap. reflexivity.
  - subst o. rewrite runCast_findAllTuitsDislikedByUser, Hg. cbv zeta.
    now rewrite Hc.
  - intros d x Hd Hu Hx. apply list_elem_of_In, list_elem_of_omap.
    exists d. split.
    + apply list_elem_of_In, List.filter_In. split; [exact Hd|].
      now apply String.eqb_eq.
    + unfold f. now rewrite Hx.
  - intros d Hd Hnone item Hin Heq. apply Hfrom in Hin.
    destruct Hin as (d' & x & _ & _ & Hx & ->). simpl in Heq. congruence.
  - rewrite omap_filter_length. f_equal. apply List.filter_ext.
    intros d. unfold f. now destruct (tuitColl s !! tuit d).
Qed.

Lemma dislikedItems_are_the_resolving_ones_witness :
  let s := sampleStore [aliceDislike; mkDislike tuit9 alice; mkDislike tuit1 bob] 2 in
  let o := runCast hex24 (DislikeController.findAllTuitsDislikedByUser
                            (toggleBy alice tuit1)) s in
  exists items,
    result o = inr (Json items)
    /\ final o = s
    /\ items =
       omap (fun d =>
               match tuitColl s !! tuit d with
               | Some x =>
                   Some (mkTuitWithPoster (tuit d) (userColl s !! postedBy x) (stats x))
               | None => None
               end)
            (List.filter (byUser alice) (dislikeColl s))
    /\ (forall d x, In d (dislikeColl s) -> dislikedBy d = alice ->
          tuitColl s !! tuit d = Some x ->
          In (mkTuitWithPoster (tuit d) (userColl s !! postedBy x) (stats x)) items)
    /\ (forall item, In item items ->
          exists d x, In d (dislikeColl s) /\ dislikedBy d = alice
                      /\ tuitColl s !! tuit d = Some x
                      /\ item = mkTuitWithPoster (tuit d) (userColl s !! postedBy x)
                                                 (stats x))
    /\ (forall d, In d (dislikeColl s) -> tuitColl s !! tuit d = None ->
          forall item, In item items -> tp_id item <> tuit d)
    /\ length items =
       length (List.filter
                 (fun d => byUser alice d
                           && bool_decide (is_Some (tuitColl s !! tuit d)))
                 (dislikeColl s)).
Proof.
  exact (dislikedItems_are_the_resolving_ones hex24
           (toggleBy alice tuit1)
           (sampleStore [aliceDislike; mkDislike tuit9 alice; mkDislike tuit1 bob] 2)
           eq_refl eq_refl).
Defined.

(** The listing of the witness: of alice's two dislikes, the one on the
    tuit of the collection. *)
Example dislikedItems_on_every_string :
  result (runCast hex24 (DislikeController.findAllTuitsDislikedByUser
                           (toggleBy alice tuit1))
            (sampleStore [aliceDislike; mkDislike tuit9 alice; mkDislike tuit1 bob] 2)) =
  inr (Json [mkTuitWithPoster tuit1 (Some (mkUser "bob"))
                              (mkStats 2 [("likes", 0%Z)])]).
Proof. vm_compute. reflexivity. Qed.

Lemma toggle_inserts_after_empty_lookup (req : Request) (s : Store) (u t : string) :
  In (u, t) (edgeInserts (log (run (DislikeController.userTogglesTuitDislikes req) s))) ->
  DislikeDao.findUserDislikesTuit u t s = None.
Proof.
  destruct (DislikeController.meWithoutProfile (uid (params req))
              (session_profile req)) eqn:Hg.
  - rewrite toggle_unauthenticated by exact Hg. intros [].
  - destruct (DislikeDao.findUserDislikesTuit
                (DislikeController.userIdOf (uid (params req)) (session_profile req))
                (tid (params req)) s) as [d|] eqn:Hf;
      destruct (tuitColl s !! tid (params req)) as [x|] eqn:Hx.
    + erewrite toggle_undislike by eauto. intros [].
    + erewrite toggle_undislike_missing by eauto. intros [].
    + erewrite toggle_dislike by eauto. simpl. intros [[= <- <-]|[]]. exact Hf.
    + erewrite toggle_dislike_missing by eauto. simpl. intros [[= <- <-]|[]]. exact Hf.
Qed.

(** C2, amended: for ids the driver casts, the insert never fails and
    always adds one record of the pair, whether or not one exists; a toggle
    without
    interleaving inserts only for the pair its point lookup found without a
    record, and so it keeps a store with at most one edge per pair a store
    with at most one edge per pair. *)
Theorem toggle_preserves_uniqueEdges (req : Request) (s : Store) :
  (forall (cast : string -> bool) (u t : string),
     cast t = true -> cast u = true ->
     fst (execCast cast (UserDislikesTuit u t) s) = inr (mkDislike t u)
     /\ dislikeColl (snd (execCast cast (UserDislikesTuit u t) s)) =
        (dislikeColl s ++ [mkDislike t u])%list
     /\ pairCount (snd (execCast cast (UserDislikesTuit u t) s)) u t =
        S (pairCount s u t))
  /\ (forall u t : string,
        In (u, t) (edgeInserts
                     (log (run (DislikeController.userTogglesTuitDislikes req) s))) ->
        pairCount s u t = 0)
  /\ (uniqueEdges s ->
      uniqueEdges (final (run (DislikeController.userTogglesTuitDislikes req) s))).
Proof.
  split; [|split].
  - intros cast u t Ht Hu. simpl. rewrite Ht, Hu. simpl.
    split; [reflexivity|]. split; [reflexivity|].
    unfold pairCount. simpl.
    rewrite filter_snoc, byPair_self, length_app. simpl. lia.
  - intros u t Hin. apply find_pairCount.
    now apply (toggle_inserts_after_empty_lookup req s).
  - intros Huniq u' t'.
    destruct (DislikeController.meWithoutProfile (uid (params req))
                (session_profile req)) eqn:Hg.
    + rewrite toggle_unauthenticated by exact Hg. apply Huniq.
    + destruct (decide
        ((DislikeController.userIdOf (uid (params req)) (session_profile req),
          tid (params req)) = (u', t'))) as [[= <- <-]|Hne].
      * rewrite toggle_pairCount by exact Hg.
        specialize (Huniq
          (DislikeController.userIdOf (uid (params req)) (session_profile req))
          (tid (params req))).
        destruct (pairCount s _ _); lia.
      * rewrite toggle_pairCount_other by exact Hne. apply Huniq.
Qed.

Lemma toggle_preserves_uniqueEdges_witness :
  let s := sampleStore [mkDislike tuit1 bob] 1 in
  let o := run (aliceToggles tuit1) s in
  uniqueEdges s
  /\ edgeInserts (log o) = [(alice, tuit1)]
  /\ dislikeColl (final o) = [mkDislike tuit1 bob; aliceDislike]
  /\ uniqueEdges (final o).
Proof.
  assert (H : uniqueEdges (sampleStore [mkDislike tuit1 bob] 1)).
  { intros u t. unfold pairCount. simpl.
    destruct (byPair u t (mkDislike tuit1 bob)); simpl; lia. }
  split; [exact H|]. split; [reflexivity|]. split; [reflexivity|].
  exact (proj2 (proj2 (toggle_preserves_uniqueEdges
                         (toggleBy alice tuit1)
                         (sampleStore [mkDislike tuit1 bob] 1))) H).
Defined.

(** ** Further properties on every string *)


Lemma toggleCast_final_resolved (cast : string -> bool) (req : Request) (s : Store) :
  DislikeController.meWithoutProfile (uid (params req)) (session_profile req) = false ->
  cast (tid (params req)) = true ->
  cast (DislikeController.userIdOf (uid (params req)) (session_profile req)) = true ->
  is_Some (tuitColl s !! tid (params req)) ->
  runCast cast (DislikeController.userTogglesTuitDislikes req) s =
  run (DislikeController.userTogglesTuitDislikes req) s.
Proof.
  intros Hg Ht Hu [x Hx]. now apply (toggleCast_resolved cast req s Hg x).
Qed.

(** X13: after a toggle served for a user who has no dislike on a tuit that
    resolves, both ids cast by the driver, the listing of the dislikers of
    the tuit is the previous listing with the user appended last, with the
    user document the store resolves, and the status check answers with
    the record of the pair. *)
Theorem toggle_then_listing (cast : string -> bool) (req : Request) (s : Store) :
  DislikeController.meWithoutProfile (uid (params req)) (session_profile req) = false ->
  cast (tid (params req)) = true ->
  cast (DislikeController.userIdOf (uid (params req)) (session_profile req)) = true ->
  is_Some (tuitColl s !! tid (params req)) ->
  DislikeDao.findUserDislikesTuit
    (DislikeController.userIdOf (uid (params req)) (session_profile req))
    (tid (params req)) s = None ->
  let u := DislikeController.userIdOf (uid (params req)) (session_profile req) in
  let t := tid (params req) in
  let o := runCast cast (DislikeController.userTogglesTuitDislikes req) s in
  result o = inr (SendStatus 200)
  /\ DislikeDao.findAllUsersThatDislikedTuit t (final o) =
     (DislikeDao.findAllUsersThatDislikedTuit t s
        ++ [mkDislikeWithUser t (userColl s !! u)])%list
  /\ result (runCast cast (DislikeController.userAlreadyDislikedTuit req) (final o)) =
     inr (Json (Some (mkDislike t u))).
Proof.
  intros Hg Ht Hu Hx Hf u t o.
  assert (Ho : o = run (DislikeController.userTogglesTuitDislikes req) s)
    by (now apply toggleCast_final_resolved).
  destruct Hx as [x Hx].
  assert (Hrun := toggle_dislike req s Hg x Hf Hx). cbv zeta in Hrun.
  rewrite <- Ho in Hrun. rewrite Hrun. cbn [result final].
  split; [reflexivity|]. split.
  - unfold DislikeDao.findAllUsersThatDislikedTuit. cbn [dislikeColl userColl].
    rewrite filter_snoc. unfold byTuit at 2. simpl. rewrite String.eqb_refl.
    now rewrite List.map_app.
  - rewrite runCast_userAlreadyDislikedTuit, Hg. cbv zeta. rewrite Ht, Hu. simpl.
    do 2 f_equal. fold u t.
    destruct (DislikeDao.findUserDislikesTuit u t _) as [d|] eqn:E.
    + unfold DislikeDao.findUserDislikesTuit in E.
      apply List.find_some in E. destruct E as [_ E].
      apply byPair_eq in E. now subst d.
    + apply find_pairCount in E. unfold pairCount in E. cbn [dislikeColl] in E.
      rewrite filter_snoc, byPair_self, length_app in E. simpl in E. lia.
Qed.

Lemma toggle_then_listing_witness :
  let s := sampleStore [mkDislike tuit1 bob] 1 in
  let o := runCast hex24 (aliceToggles tuit1) s in
  result o = inr (SendStatus 200)
  /\ DislikeDao.findAllUsersThatDislikedTuit tuit1 (final o) =
     (DislikeDao.findAllUsersThatDislikedTuit tuit1 s
        ++ [mkDislikeWithUser tuit1 (userColl s !! alice)])%list
  /\ result (runCast hex24 (DislikeController.userAlreadyDislikedTuit
                              (toggleBy alice tuit1)) (final o)) =
     inr (Json (Some (mkDislike tuit1 alice))).
Proof.
  apply (toggle_then_listing hex24 (toggleBy alice tuit1)
           (sampleStore [mkDislike tuit1 bob] 1));
    try reflexivity.
  vm_compute. eauto.
Defined.

Lemma serveTogglesCast_cons
    (cast : string -> bool) (req : Request) (reqs : list Request) (s : Store) :
  serveTogglesCast cast (req :: reqs) s =
  let o := runCast cast (DislikeController.userTogglesTuitDislikes req) s in
  (result o :: fst (serveTogglesCast cast reqs (final o)),
   snd (serveTogglesCast cast reqs (final o))).
Proof. simpl. destruct (serveTogglesCast cast reqs _). reflexivity. Qed.

(** X14: the same toggle served n times in a row, for ids the driver casts,
    a tuit that resolves and a pair with at most one edge record: the pair
    ends with the record count it started with when n is even and with the
    other one of 0 and 1 when n is odd. *)
Theorem repeated_toggle_parity
    (cast : string -> bool) (req : Request) (s : Store) (n : nat) :
  DislikeController.meWithoutProfile (uid (params req)) (session_profile req) = false ->
  cast (tid (params req)) = true ->
  cast (DislikeController.userIdOf (uid (params req)) (session_profile req)) = true ->
  is_Some (tuitColl s !! tid (params req)) ->
  pairCount s (DislikeController.userIdOf (uid (params req)) (session_profile req))
            (tid (params req)) <= 1 ->
  pairCount (snd (serveTogglesCast cast (replicate n req) s))
            (DislikeController.userIdOf (uid (params req)) (session_profile req))
            (tid (params req)) =
  if Nat.even n
  then pairCount s (DislikeController.userIdOf (uid (params req)) (session_profile req))
                 (tid (params req))
  else 1 - pairCount s (DislikeController.userIdOf (uid (params req)) (session_profile req))
                     (tid (params req)).
Proof.
  intros Hg Ht Hu. revert s.
  induction n as [|n IH]; intros s Hx Hle; [reflexivity|].
  rewrite Nat.even_succ, <- Nat.negb_even.
  simpl replicate. rewrite serveTogglesCast_cons. cbn [snd].
  rewrite (toggleCast_final_resolved cast req s Hg Ht Hu Hx).
  assert (H1 := toggle_pairCount req s Hg).
  rewrite IH.
  - rewrite H1.
    destruct (Nat.even n); simpl; destruct (pairCount s _ _) as [|[|k]]; lia.
  - now apply toggle_keeps_resolution.
  - rewrite H1. destruct (pairCount s _ _) as [|[|k]]; lia.
Qed.

Lemma repeated_toggle_parity_witness :
  pairCount (snd (serveTogglesCast hex24 (replicate 3 (toggleBy alice tuit1))
                                   (sampleStore [aliceDislike] 1)))
            alice tuit1 =
  1 - pairCount (sampleStore [aliceDislike] 1) alice tuit1.
Proof.
  apply (repeated_toggle_parity hex24 (toggleBy alice tuit1)
           (sampleStore [aliceDislike] 1) 3);
    [reflexivity | reflexivity | reflexivity
    | vm_compute; eauto | vm_compute; lia].
Defined.

(** X19: the listing of the tuits a user dislikes and the status check, on
    any strings: both leave the store unchanged; for the "me" alias
    without a profile both answer 403 before any store call; for every
    other request each makes one read, and answers with a body when the
    driver casts the ids of the read, and is left rejected by the cast
    error, with no answer sent, when it does not. *)
Theorem queries_on_every_string
    (cast : string -> bool) (req : Request) (s : Store) :
  let u := DislikeController.userIdOf (uid (params req)) (session_profile req) in
  let t := tid (params req) in
  let o1 := runCast cast (DislikeController.findAllTuitsDislikedByUser req) s in
  let o2 := runCast cast (DislikeController.userAlreadyDislikedTuit req) s in
  final o1 = s /\ final o2 = s
  /\ (uid (params req) = "me" /\ session_profile req = None ->
        o1 = mkOutcome (inr (SendStatus 403)) s []
        /\ o2 = mkOutcome (inr (SendStatus 403)) s [])
  /\ (~ (uid (params req) = "me" /\ session_profile req = None) ->
        length (log o1) = 1 /\ length (log o2) = 1
        /\ (if cast u
            then exists body, result o1 = inr (Json body)
            else result o1 = inl CastError)
        /\ (if cast t && cast u
            then result o2 = inr (Json (DislikeDao.findUserDislikesTuit u t s))
            else result o2 = inl CastError)).
Proof.
  intros u t o1 o2. subst o1 o2.
  rewrite runCast_findAllTuitsDislikedByUser, runCast_userAlreadyDislikedTuit.
  cbv zeta. fold u t.
  destruct (DislikeController.meWithoutProfile (uid (params req))
              (session_profile req)) eqn:Hg.
  - apply meWithoutProfile_true in Hg. repeat split; tauto.
  - assert (Hn : ~ (uid (params req) = "me" /\ session_profile req = None)).
    { rewrite <- meWithoutProfile_true. congruence. }
    destruct (cast u), (cast t); simpl; repeat split; try tauto; eauto.
Qed.
